(** * Reconciliation of a Kerberos key record: [plugins/modules/kerberos_keys.py]

    A shallow embedding of [KerberosModule] (its constructor, [find],
    [payload_changed], [create], [update], [delete] and [run_command]) and
    the properties of the reconciliation it implements.

    Python dictionaries are finite maps from strings to values; the module
    object and the log of remote calls are threaded through a small state
    and exception monad whose outcomes are a normal return, a raised
    exception, [exit_json] or [fail_json]. *)

From Stdlib Require Import ZArith String.
From stdpp Require Import base option gmap strings list pretty.

Set Warnings "-register-all".

(** ** Values *)

(** The Python values that occur in module parameters, serialized resources
    and results: [None], booleans, integers, strings and dictionaries with
    string keys.  Equality of dictionaries is extensional, as Python's. *)
Inductive value :=
  | VNone
  | VBool (b : bool)
  | VInt (z : Z)
  | VStr (s : string)
  | VDict (d : gmap string value).

Abbreviation dict := (gmap string value).

#[global] Instance value_eq_dec : EqDecision value.
Proof.
  refine (fix go (v1 v2 : value) {struct v1} : Decision (v1 = v2) :=
    let _ : EqDecision value := @go in
    match v1, v2 with
    | VNone, VNone => left _
    | VBool a, VBool b => cast_if (decide (a = b))
    | VInt a, VInt b => cast_if (decide (a = b))
    | VStr a, VStr b => cast_if (decide (a = b))
    | VDict a, VDict b => cast_if (decide (a = b))
    | _, _ => right _
    end); try congruence.
Defined.

(** [x if x is not None else None] for an optional string attribute. *)
Definition of_opt_str (o : option string) : value :=
  match o with Some s => VStr s | None => VNone end.

Definition as_str (v : value) : option string :=
  match v with VStr s => Some s | _ => None end.

Definition as_int (v : value) : option Z :=
  match v with VInt z => Some z | _ => None end.

Definition as_dict (v : value) : option dict :=
  match v with VDict d => Some d | _ => None end.

(** Python truthiness, [bool(v)]. *)
Definition truthy (v : value) : bool :=
  match v with
  | VNone => false
  | VBool b => b
  | VInt z => negb (z =? 0)%Z
  | VStr s => negb (String.eqb s "")
  | VDict d => negb (bool_decide (d = ∅))
  end.

(** ** The resource model *)

(** The [KerberosKey] model of the client library, with the attributes the
    module documents in [RETURN]; every attribute is optional. *)
Module KerberosKey.

Record t := {
  algorithm : option string;
  comment : option string;
  domain : option string;
  id : option string;
  principal : option string;
  tags : option dict;
  uploaded_at : option string;
  version : option Z;
}.

#[global] Instance eq_dec : EqDecision t.
Proof. solve_decision. Defined.

(** [model_dump(by_alias=True, exclude_none=True)]: the attributes that are
    not [None], by name. *)
Definition model_dump (k : t) : dict :=
  list_to_map (omap (λ '(n, o), pair n <$> o)
    [ ("algorithm", VStr <$> algorithm k);
      ("comment", VStr <$> comment k);
      ("domain", VStr <$> domain k);
      ("id", VStr <$> id k);
      ("principal", VStr <$> principal k);
      ("tags", VDict <$> tags k);
      ("uploaded_at", VStr <$> uploaded_at k);
      ("version", VInt <$> version k) ]).

(** [KerberosKey.from_dict]: the attributes named in the dictionary. *)
Definition from_dict (d : dict) : t :=
  {| algorithm := d !! "algorithm" ≫= as_str;
     comment := d !! "comment" ≫= as_str;
     domain := d !! "domain" ≫= as_str;
     id := d !! "id" ≫= as_str;
     principal := d !! "principal" ≫= as_str;
     tags := d !! "tags" ≫= as_dict;
     uploaded_at := d !! "uploaded_at" ≫= as_str;
     version := d !! "version" ≫= as_int |}.

End KerberosKey.

(** ** Exceptions and outcomes *)

(** The exceptions of the client library carry [status], [reason] and
    [body].  [NotFoundException] is the subclass of [ApiException] for a
    resource that does not exist; the constructor [ApiException] stands for
    every other API failure.  [KeyError] and [AttributeError] are the
    built-in exceptions of a failed subscript and of an attribute access on
    [None]. *)
Inductive exn :=
  | ApiException (status : Z) (reason body : string)
  | NotFoundException (status : Z) (reason body : string)
  | KeyError (key : string)
  | AttributeError (attr : string).

(** [isinstance(e, ApiException)], what [except ApiException] catches. *)
Definition isinstance_ApiException (e : exn) : bool :=
  match e with
  | ApiException _ _ _ | NotFoundException _ _ _ => true
  | _ => false
  end.

(** [isinstance(e, NotFoundException)]. *)
Definition isinstance_NotFoundException (e : exn) : bool :=
  match e with NotFoundException _ _ _ => true | _ => false end.

(** The calls of [KerberosApi] that the module issues. *)
Inductive call :=
  | Read (id : value)
  | List (filter : string)
  | Create (body : KerberosKey.t)
  | Update (id : option string) (body : KerberosKey.t)
  | Delete (id : option string).

(** The calls that modify the remote service. *)
Definition is_write (c : call) : bool :=
  match c with
  | Create _ | Update _ _ | Delete _ => true
  | Read _ | List _ => false
  end.

(** The remote service as seen during one invocation: what each call
    answers, a value or a raised exception. *)
Record KerberosApi := {
  api_read : value → exn + KerberosKey.t;
  api_list : string → exn + list KerberosKey.t;
  api_create : KerberosKey.t → exn + KerberosKey.t;
  api_update : option string → KerberosKey.t → exn + KerberosKey.t;
  api_delete : option string → exn + unit;
}.

(** The exception with which the service answers a call, if any. *)
Definition raised_by (client : KerberosApi) (c : call) : option exn :=
  match c with
  | Read i => match api_read client i with inl e => Some e | inr _ => None end
  | List f => match api_list client f with inl e => Some e | inr _ => None end
  | Create b => match api_create client b with inl e => Some e | inr _ => None end
  | Update i b => match api_update client i b with inl e => Some e | inr _ => None end
  | Delete i => match api_delete client i with inl e => Some e | inr _ => None end
  end.

(** The module object: the parameters and check mode of the base class and
    the three attributes that [__init__] sets. *)
Record KerberosModule := {
  params : dict;
  check_mode : bool;
  _payload_params : dict;
  _payload : KerberosKey.t;
  _existing : option KerberosKey.t;
}.

(** How a piece of the module ends: it returns, raises, or leaves the
    process through [exit_json] or [fail_json]. *)
Inductive outcome (A : Type) :=
  | Return (a : A)
  | Raise (e : exn)
  | ExitJson (result : dict)
  | FailJson (msg : string).
Arguments Return {A} a.
Arguments Raise {A} e.
Arguments ExitJson {A} result.
Arguments FailJson {A} msg.

(** A computation reads and writes the module object and appends to the log
    of remote calls. *)
Definition world : Type := KerberosModule * list call.

Definition M (A : Type) : Type := world → outcome A * world.

#[global] Instance M_ret : MRet M := λ A a w, (Return a, w).

#[global] Instance M_bind : MBind M := λ A B f m w,
  match m w with
  | (Return a, w') => f a w'
  | (Raise e, w') => (Raise e, w')
  | (ExitJson r, w') => (ExitJson r, w')
  | (FailJson s, w') => (FailJson s, w')
  end.

Definition raise {A} (e : exn) : M A := λ w, (Raise e, w).

Definition exit_json {A} (result : dict) : M A := λ w, (ExitJson result, w).

Definition fail_json {A} (msg : string) : M A := λ w, (FailJson msg, w).

(** [try: body  except C as e: handler e], where [catches] decides
    [isinstance(e, C)]. *)
Definition try_except {A} (body : M A) (catches : exn → bool)
    (handler : exn → M A) : M A := λ w,
  match body w with
  | (Raise e, w') => if catches e then handler e w' else (Raise e, w')
  | r => r
  end.

Definition get_self : M KerberosModule := λ w, (Return w.1, w).

(** [d[k]]: the value, or [KeyError]. *)
Definition getitem (d : dict) (k : string) : M value :=
  match d !! k with Some v => mret v | None => raise (KeyError k) end.

(** [self.params[k]]. *)
Definition getitem_params (k : string) : M value :=
  self ← get_self; getitem (params self) k.

(** The setter of the [existing] property. *)
Definition set_existing (v : option KerberosKey.t) : M unit := λ w,
  (Return tt,
   ({| params := params w.1; check_mode := check_mode w.1;
       _payload_params := _payload_params w.1; _payload := _payload w.1;
       _existing := v |}, w.2)).

(** A call of the client: logged, then answered by the service. *)
Definition remote {A} (c : call) (resp : exn + A) : M A := λ w,
  (match resp with inr a => Return a | inl e => Raise e end, (w.1, w.2 ++ [c])).

(** ** The parameters and the payload *)

Definition exclude : list string := ["state"; "csp_url"; "api_key"; "id"].

(** [{k: v for k, v in params.items() if v is not None and k not in exclude}] *)
Definition payload_params_of (params : dict) : dict :=
  filter (λ kv, kv.2 ≠ VNone ∧ kv.1 ∉ exclude) params.

(** [KerberosModule.__init__] *)
Definition init (params : dict) (check_mode : bool) : KerberosModule :=
  {| params := params; check_mode := check_mode;
     _payload_params := payload_params_of params;
     _payload := KerberosKey.from_dict (payload_params_of params);
     _existing := None |}.

(** Modelled from the spec: [BloxoneAnsibleModule.is_changed], the helper of
    the base class that [payload_changed] calls, is not part of the source
    at hand.  It is true iff some key of the payload has a value that
    differs from the existing mapping's value for that key, or is absent
    from the existing mapping. *)
Definition is_changed (existing payload : dict) : bool :=
  existsb (λ kv, bool_decide (existing !! kv.1 ≠ Some kv.2)) (map_to_list payload).

(** The options that [main] declares in [module_args], with the value a
    parameter has when the task does not set it. *)
Definition module_args : list (string * value) :=
  [("id", VNone); ("state", VStr "present"); ("comment", VNone); ("tags", VNone)].

(** Modelled from the spec: the base class [BloxoneAnsibleModule], which is
    not part of the source at hand, adds the connection parameters, which
    are no part of the payload; they are the two that [exclude] names. *)
Definition common_args : list (string * value) :=
  [("csp_url", VNone); ("api_key", VNone)].

(** The parameters of a task: one entry for every declared option, holding
    the value the task supplies or else the default. *)
Definition module_params (supplied : dict) : dict :=
  list_to_map
    ((λ kd, (kd.1, default kd.2 (supplied !! kd.1))) <$> (module_args ++ common_args)).

(** ** A sample service *)

Module Sample.

(** A key as the service holds it before and after its comment is set. *)
Definition key_old : KerberosKey.t :=
  {| KerberosKey.algorithm := Some "aes256-cts-hmac-sha1-96";
     KerberosKey.comment := Some "old";
     KerberosKey.domain := Some "EXAMPLE.COM";
     KerberosKey.id := Some "k1";
     KerberosKey.principal := Some "DNS/ns1.example.com";
     KerberosKey.tags := None;
     KerberosKey.uploaded_at := None;
     KerberosKey.version := Some 2%Z |}.

Definition key_new : KerberosKey.t :=
  {| KerberosKey.algorithm := Some "aes256-cts-hmac-sha1-96";
     KerberosKey.comment := Some "new";
     KerberosKey.domain := Some "EXAMPLE.COM";
     KerberosKey.id := Some "k1";
     KerberosKey.principal := Some "DNS/ns1.example.com";
     KerberosKey.tags := None;
     KerberosKey.uploaded_at := None;
     KerberosKey.version := Some 2%Z |}.

Definition not_found : exn := NotFoundException 404 "Not Found" "{}".

(** A service that holds [key] under the identifier [k1] and answers an
    update with [updated]. *)
Definition service (key updated : KerberosKey.t) : KerberosApi :=
  {| api_read := λ i, if decide (i = VStr "k1") then inr key else inl not_found;
     api_list := λ _, inr [];
     api_create := λ body, inr body;
     api_update := λ _ _, inr updated;
     api_delete := λ _, inr tt |}.

(** The service before the first run, and after it: the read then answers
    the key that the update returned. *)
Definition service_before : KerberosApi := service key_old key_new.
Definition service_after : KerberosApi := service key_new key_new.

(** A service whose every call fails. *)
Definition service_down : KerberosApi :=
  let e := ApiException 500 "Internal Server Error" "unavailable" in
  {| api_read := λ _, inl e; api_list := λ _, inl e; api_create := λ _, inl e;
     api_update := λ _ _, inl e; api_delete := λ _, inl e |}.

Definition str (v : value) : string :=
  match v with VStr s => s | _ => "None" end.

Definition repr (k : KerberosKey.t) : string :=
  "KerberosKey(id=" +:+ default "None" (KerberosKey.id k) +:+ ")".

(** The parameters of three tasks: set the comment of [k1], remove a key
    that does not exist, and set a comment without an identifier. *)
Definition task_comment : dict :=
  module_params (<["id" := VStr "k1"]> (<["comment" := VStr "new"]> ∅)).

Definition task_remove : dict :=
  module_params (<["id" := VStr "k9"]> (<["state" := VStr "absent"]> ∅)).

Definition task_no_id : dict :=
  module_params (<["comment" := VStr "new"]> ∅).

(** A service that holds two keys under the same name. *)
Definition service_twins : KerberosApi :=
  {| api_read := λ _, inl not_found;
     api_list := λ _, inr [key_old; key_new];
     api_create := λ body, inr body;
     api_update := λ _ _, inr key_new;
     api_delete := λ _, inr tt |}.

(** A service that holds no key. *)
Definition service_gone : KerberosApi :=
  {| api_read := λ _, inl not_found;
     api_list := λ _, inr [];
     api_create := λ _, inr key_new;
     api_update := λ _ _, inl not_found;
     api_delete := λ _, inl not_found |}.

(** A service that loses [k1] between the read and the delete. *)
Definition service_racing : KerberosApi :=
  {| api_read := λ _, inr key_old;
     api_list := λ _, inr [key_old];
     api_create := λ body, inr body;
     api_update := λ _ _, inl not_found;
     api_delete := λ _, inl not_found |}.

(** A service whose read breaks outside the client's exceptions. *)
Definition service_broken : KerberosApi :=
  {| api_read := λ _, inl (AttributeError "result");
     api_list := λ _, inl (AttributeError "results");
     api_create := λ body, inr body;
     api_update := λ _ _, inr key_new;
     api_delete := λ _, inr tt |}.

(** The parameters of two more tasks: remove [k1], and set a comment on
    the key found by a name, for a module object that has the parameter
    [name]. *)
Definition task_delete : dict :=
  module_params (<["id" := VStr "k1"]> (<["state" := VStr "absent"]> ∅)).

Definition task_named : dict :=
  <["name" := VStr "ns1"]> (module_params (<["comment" := VStr "new"]> ∅)).

End Sample.

(** ** The module, for a given service *)

Section Reconciler.

(** The service of this invocation, Python's [str] on a parameter value and
    its rendering of a list element ([repr] of a [KerberosKey]). *)
Context (client : KerberosApi).
Context (py_str : value → string) (py_repr : KerberosKey.t → string).

(** [str(results)] for a list of resources. *)
Definition str_list (l : list KerberosKey.t) : string :=
  "[" +:+ String.concat ", " (map py_repr l) +:+ "]".

(** [KerberosModule.payload_changed] *)
Definition payload_changed : M bool :=
  self ← get_self;
  match _existing self with
  | None => mret true
  | Some existing =>
      mret (is_changed (KerberosKey.model_dump existing) (_payload_params self))
  end.

(** [KerberosModule.find] *)
Definition find : M (option KerberosKey.t) :=
  id ← getitem_params "id";
  if decide (id ≠ VNone) then
    try_except
      (id ← getitem_params "id";
       resp ← remote (Read id) (api_read client id);
       mret (Some resp))
      isinstance_NotFoundException
      (λ e,
        state ← getitem_params "state";
        if decide (state = VStr "absent") then mret None else raise e)
  else
    name ← getitem_params "name";
    let filter := "name=='" +:+ py_str name +:+ "'" in
    results ← remote (List filter) (api_list client filter);
    if decide (length results = 1) then
      match results !! 0 with Some r => mret (Some r) | None => mret None end
    else if decide (1 < length results) then
      fail_json ("Found multiple Kerberos: " +:+ str_list results)
    else mret None.

(** [self.existing.id]; on [None] the attribute access fails. *)
Definition existing_id : M (option string) :=
  self ← get_self;
  match _existing self with
  | Some existing => mret (KerberosKey.id existing)
  | None => raise (AttributeError "id")
  end.

(** [KerberosModule.create] *)
Definition create : M value :=
  self ← get_self;
  if check_mode self then mret VNone
  else
    resp ← remote (Create (_payload self)) (api_create client (_payload self));
    mret (VDict (KerberosKey.model_dump resp)).

(** [KerberosModule.update] *)
Definition update : M value :=
  self ← get_self;
  if check_mode self then mret VNone
  else
    id ← existing_id;
    resp ← remote (Update id (_payload self)) (api_update client id (_payload self));
    mret (VDict (KerberosKey.model_dump resp)).

(** [KerberosModule.delete] *)
Definition delete : M unit :=
  self ← get_self;
  if check_mode self then mret tt
  else
    id ← existing_id;
    remote (Delete id) (api_delete client id).

(** The result with which [run_command] starts:
    [dict(changed=False, object={}, id=None)]. *)
Definition initial_result : dict :=
  <["changed" := VBool false]> (<["object" := VDict ∅]> (<["id" := VNone]> ∅)).

(** The [if]/[elif] chain of [run_command]: the action, and the item and
    result after it.  [self.params["state"]] is the first thing each
    condition evaluates, so it is read once. *)
Definition act (result : dict) : M (value * dict) :=
  let item := VDict ∅ in
  state ← getitem_params "state";
  self ← get_self;
  if bool_decide (state = VStr "present") && bool_decide (_existing self = None) then
    item ← create;
    mret (item, <["msg" := VStr "Kerberos created"]> (<["changed" := VBool true]> result))
  else if bool_decide (state = VStr "present") && bool_decide (_existing self ≠ None) then
    changed ← payload_changed;
    if (changed : bool) then
      item ← update;
      mret (item, <["msg" := VStr "Kerberos updated"]> (<["changed" := VBool true]> result))
    else mret (item, result)
  else if bool_decide (state = VStr "absent") && bool_decide (_existing self ≠ None) then
    delete;;
    mret (item, <["msg" := VStr "Kerberos deleted"]> (<["changed" := VBool true]> result))
  else mret (item, result).

(** The value of [result["id"]]:
    [existing.id if existing is not None else item["id"] if (item and "id" in item) else None]. *)
Definition result_id (existing : option KerberosKey.t) (item : value) : M value :=
  match existing with
  | Some e => mret (of_opt_str (KerberosKey.id e))
  | None =>
      match item with
      | VDict d =>
          if truthy item && bool_decide (is_Some (d !! "id")) then getitem d "id"
          else mret VNone
      | _ => mret VNone
      end
  end.

(** The [try] block of [run_command] after [self.existing = self.find()]:
    the action, the early exit in check mode, and the assembly of the
    result. *)
Definition reconcile (result : dict) : M dict :=
  acted ← act result;
  let item := acted.1 in
  let result := acted.2 in
  self ← get_self;
  (if check_mode self then exit_json result else mret tt);;
  let before :=
    match _existing self with
    | Some e => VDict (KerberosKey.model_dump e)
    | None => VDict ∅
    end in
  let result := <["diff" := VDict (<["before" := before]> (<["after" := item]> ∅))]> result in
  let result := <["object" := item]> result in
  id ← result_id (_existing self) item;
  mret (<["id" := id]> result).

(** The body of the [try] block of [run_command]. *)
Definition try_body (result : dict) : M dict :=
  existing ← find;
  set_existing existing;;
  reconcile result.

(** The message of the [except ApiException] handler, for the exceptions
    that the handler catches. *)
Definition failed_msg (e : exn) : string :=
  match e with
  | ApiException status reason body | NotFoundException status reason body =>
      "Failed to execute command: " +:+ pretty status +:+ " " +:+ reason +:+ " " +:+ body
  | _ => ""
  end.

(** [KerberosModule.run_command] *)
Definition run_command : M unit :=
  result ← try_except (try_body initial_result) isinstance_ApiException
              (λ e, fail_json (failed_msg e));
  exit_json result.

(** [main]: the parameters are those of the argument specification, the
    module is constructed and [run_command] runs with an empty log. *)
Definition main (params : dict) (check_mode : bool) : outcome unit * world :=
  run_command (init params check_mode, []).

(** ** The reconciliation in closed form *)

(** The four actions of the reconciler. *)
Inductive action := ActCreate | ActUpdate | ActDelete | ActNoop.

(** The transition table of the specification: the action for a declared
    state, a resolved resource and a drift decision. *)
Definition decide_action (state : value) (existing : option KerberosKey.t)
    (drift : bool) : action :=
  match existing with
  | None => if decide (state = VStr "present") then ActCreate else ActNoop
  | Some _ =>
      if decide (state = VStr "present") then
        if drift then ActUpdate else ActNoop
      else if decide (state = VStr "absent") then ActDelete else ActNoop
  end.

(** What an action reports: the result after the branch of [run_command]
    that takes it. *)
Definition mark (a : action) (result : dict) : dict :=
  match a with
  | ActCreate => <["msg" := VStr "Kerberos created"]> (<["changed" := VBool true]> result)
  | ActUpdate => <["msg" := VStr "Kerberos updated"]> (<["changed" := VBool true]> result)
  | ActDelete => <["msg" := VStr "Kerberos deleted"]> (<["changed" := VBool true]> result)
  | ActNoop => result
  end.

(** The drift decision of a module object, the value [payload_changed]
    returns. *)
Definition drift (m : KerberosModule) : bool :=
  match _existing m with
  | None => true
  | Some e => is_changed (KerberosKey.model_dump e) (_payload_params m)
  end.

(** The remote write of an action and the item its answer gives. *)
Definition answer (m : KerberosModule) (a : action) : option (call * (exn + value)) :=
  let id := _existing m ≫= KerberosKey.id in
  match a with
  | ActCreate =>
      Some (Create (_payload m),
            match api_create client (_payload m) with
            | inl e => inl e
            | inr k => inr (VDict (KerberosKey.model_dump k))
            end)
  | ActUpdate =>
      Some (Update id (_payload m),
            match api_update client id (_payload m) with
            | inl e => inl e
            | inr k => inr (VDict (KerberosKey.model_dump k))
            end)
  | ActDelete =>
      Some (Delete id,
            match api_delete client id with
            | inl e => inl e
            | inr _ => inr (VDict ∅)
            end)
  | ActNoop => None
  end.

(** The value that [result_id] returns. *)
Definition id_of (existing : option KerberosKey.t) (item : value) : value :=
  match existing with
  | Some e => of_opt_str (KerberosKey.id e)
  | None =>
      match item with
      | VDict d => default VNone (d !! "id")
      | _ => VNone
      end
  end.

(** The result after the assignments of [diff], [object] and [id]. *)
Definition assembled (m : KerberosModule) (item : value) (result : dict) : dict :=
  let before :=
    match _existing m with
    | Some e => VDict (KerberosKey.model_dump e)
    | None => VDict ∅
    end in
  <["id" := id_of (_existing m) item]>
    (<["object" := item]>
      (<["diff" := VDict (<["before" := before]> (<["after" := item]> ∅))]> result)).

(** The module object after [self.existing = v]. *)
Definition with_existing (v : option KerberosKey.t) (m : KerberosModule) : KerberosModule :=
  {| params := params m; check_mode := check_mode m;
     _payload_params := _payload_params m; _payload := _payload m;
     _existing := v |}.

(** The module object run with another check mode. *)
Definition with_check_mode (b : bool) (m : KerberosModule) : KerberosModule :=
  {| params := params m; check_mode := b;
     _payload_params := _payload_params m; _payload := _payload m;
     _existing := _existing m |}.

(** How [run_command] leaves: the [except ApiException] handler and the
    final [exit_json], applied to the outcome of the [try] block. *)
Definition leave (r : outcome dict * world) : outcome unit * world :=
  match r with
  | (Return result, w) => (ExitJson result, w)
  | (Raise e, w) =>
      if isinstance_ApiException e then (FailJson (failed_msg e), w) else (Raise e, w)
  | (ExitJson result, w) => (ExitJson result, w)
  | (FailJson msg, w) => (FailJson msg, w)
  end.

(** The new calls of a log that extends another. *)
Definition issued (before after : list call) : list call :=
  drop (length before) after.

(** The filter of the lookup by name. *)
Definition name_filter (name : value) : string := "name=='" +:+ py_str name +:+ "'".

(** The one tolerated failure: a read by identifier answered not-found
    while the declared state is absent. *)
Definition tolerated (m : KerberosModule) (c : call) (e : exn) : Prop :=
  (∃ i, c = Read i) ∧ isinstance_NotFoundException e = true ∧
  params m !! "state" = Some (VStr "absent").

(** Whether an action changes the remote service. *)
Definition changes (a : action) : bool :=
  match a with ActNoop => false | _ => true end.

(** A run takes an action when it issues the writes of the action and no
    other, none in check mode, reports the change of the action whenever it
    exits, and does exit when the writes are answered. *)
Definition takes (w : world) (writes : list call) (changed : bool) : Prop :=
  ∃ out m' new,
    run_command w = (out, (m', w.2 ++ new)) ∧
    filter is_write new = (if check_mode w.1 then [] else writes) ∧
    (∀ r, out = ExitJson r → r !! "changed" = Some (VBool changed)) ∧
    ((check_mode w.1 = true ∨ ∀ c, c ∈ writes → raised_by client c = None) →
     ∃ r, out = ExitJson r).

(** ** Tactics *)

Ltac mcbn :=
  cbn -[insert lookup initial_result KerberosKey.model_dump is_changed
        failed_msg str_list result_id id_of] in *.

Lemma result_id_eq existing item w :
  result_id existing item w = (Return (id_of existing item), w).
Proof.
  unfold result_id, id_of, getitem.
  destruct existing as [e|]; [done|].
  destruct item as [| | | |d]; try done.
  destruct (d !! "id") as [v|] eqn:Hd.
  - assert (truthy (VDict d) = true) as ->.
    { simpl. rewrite bool_decide_false; [done|]. intros ->. by rewrite lookup_empty in Hd. }
    done.
  - by rewrite andb_false_r.
Qed.

Lemma reconcile_eq result m calls st :
  params m !! "state" = Some st →
  reconcile result (m, calls) =
    let a := decide_action st (_existing m) (drift m) in
    if check_mode m then (ExitJson (mark a result), (m, calls))
    else match answer m a with
         | None => (Return (assembled m (VDict ∅) (mark a result)), (m, calls))
         | Some (c, inl e) => (Raise e, (m, calls ++ [c]))
         | Some (c, inr item) =>
             (Return (assembled m item (mark a result)), (m, calls ++ [c]))
         end.
Proof.
  intros Hst. destruct m as [p cm pp pl ex].
  unfold reconcile, act, getitem_params, getitem, get_self.
  unfold reconcile, act, create, update, delete, payload_changed, existing_id,
    getitem_params, getitem, get_self, remote, exit_json, mbind, M_bind, mret, M_ret.
  mcbn. rewrite Hst. unfold decide_action, drift, answer, assembled. mcbn.
  destruct ex as [e|]; mcbn; repeat case_bool_decide; repeat case_decide;
    simplify_eq; mcbn; try destruct (is_changed _ _); destruct cm; mcbn;
    try done.
  all: try destruct (api_create _ _); try destruct (api_update _ _ _);
    try destruct (api_delete _ _); mcbn; rewrite ?result_id_eq; done.
Qed.

Lemma reconcile_no_state result m calls :
  params m !! "state" = None →
  reconcile result (m, calls) = (Raise (KeyError "state"), (m, calls)).
Proof.
  intros Hst. destruct m as [p cm pp pl ex].
  unfold reconcile, act, getitem_params, getitem, get_self, raise, mbind, M_bind.
  mcbn. by rewrite Hst.
Qed.

(** [run_command] is [find], then [reconcile] on the module object that
    holds what [find] returned, then the handler and the final exit. *)
Lemma run_command_eq w :
  run_command w =
    leave match find w with
          | (Return ex, (m1, calls1)) =>
              reconcile initial_result (with_existing ex m1, calls1)
          | (Raise e, w1) => (Raise e, w1)
          | (ExitJson r, w1) => (ExitJson r, w1)
          | (FailJson s, w1) => (FailJson s, w1)
          end.
Proof.
  unfold run_command, try_except, try_body, set_existing, exit_json, fail_json,
    leave, with_existing, mbind, M_bind.
  destruct (find w) as [[ex|e|r|s] [m1 calls1]]; mcbn; try done.
  - by destruct (reconcile _ _) as [[?|e|?|?] ?]; [| destruct (isinstance_ApiException e) | |].
  - by destruct (isinstance_ApiException e).
Qed.

(** The lookup by identifier: one read, and the answer or the exception of
    the service, a not-found being tolerated when the state is absent. *)
Lemma find_by_id m calls i :
  params m !! "id" = Some i → i ≠ VNone →
  find (m, calls) =
    (match api_read client i with
     | inr k => Return (Some k)
     | inl e =>
         if isinstance_NotFoundException e then
           match params m !! "state" with
           | Some st => if decide (st = VStr "absent") then Return None else Raise e
           | None => Raise (KeyError "state")
           end
         else Raise e
     end, (m, calls ++ [Read i])).
Proof.
  intros Hid Hi. destruct m as [p cm pp pl ex].
  unfold find, try_except, getitem_params, getitem, get_self, remote, raise,
    mbind, M_bind, mret, M_ret.
  mcbn. rewrite Hid. mcbn. rewrite decide_True by done. mcbn. rewrite Hid. mcbn.
  destruct (api_read client i) as [e|k]; mcbn; [|done].
  destruct (isinstance_NotFoundException e); [|done].
  destruct (p !! "state") as [st|]; mcbn; [|done].
  by destruct (decide (st = VStr "absent")).
Qed.

(** The lookup by name: one list call with the filter, then none, the one
    match, or the failure on several matches. *)
Lemma find_by_name m calls name :
  params m !! "id" = Some VNone → params m !! "name" = Some name →
  find (m, calls) =
    (match api_list client (name_filter name) with
     | inl e => Raise e
     | inr [] => Return None
     | inr [r] => Return (Some r)
     | inr results => FailJson ("Found multiple Kerberos: " +:+ str_list results)
     end, (m, calls ++ [List (name_filter name)])).
Proof.
  intros Hid Hname. destruct m as [p cm pp pl ex].
  unfold find, try_except, getitem_params, getitem, get_self, remote, raise,
    fail_json, mbind, M_bind, mret, M_ret, name_filter.
  mcbn. rewrite Hid. mcbn. rewrite decide_False by (intros H; by apply H).
  mcbn. rewrite Hname. mcbn.
  destruct (api_list client _) as [e|[|r [|r' l]]]; mcbn; done.
Qed.

(** Without an identifier the lookup needs the parameter [name]. *)
Lemma find_no_name m calls :
  params m !! "id" = Some VNone → params m !! "name" = None →
  find (m, calls) = (Raise (KeyError "name"), (m, calls)).
Proof.
  intros Hid Hname. destruct m as [p cm pp pl ex].
  unfold find, try_except, getitem_params, getitem, get_self, remote, raise,
    fail_json, mbind, M_bind, mret, M_ret.
  mcbn. rewrite Hid. mcbn. rewrite decide_False by (intros H; by apply H).
  mcbn. by rewrite Hname.
Qed.

Lemma find_no_id m calls :
  params m !! "id" = None →
  find (m, calls) = (Raise (KeyError "id"), (m, calls)).
Proof.
  intros Hid. destruct m as [p cm pp pl ex].
  unfold find, getitem_params, getitem, get_self, raise, mbind, M_bind.
  mcbn. by rewrite Hid.
Qed.

(** [find] leaves the module object as it is, never exits, issues at most
    one call, which is no write, and raises what that call raises, unless
    that is a not-found which is tolerated or met without a state. *)
Lemma find_frame m calls :
  ∃ o new, find (m, calls) = (o, (m, calls ++ new)) ∧
    (∀ r, o ≠ ExitJson r) ∧
    filter is_write new = [] ∧
    length new ≤ 1 ∧
    (∀ c e, c ∈ new → raised_by client c = Some e →
       (isinstance_NotFoundException e = true →
        is_Some (params m !! "state") ∧ ¬ tolerated m c e) →
       o = Raise e).
Proof.
  destruct (params m !! "id") as [i|] eqn:Hid.
  - destruct (decide (i = VNone)) as [->|Hi].
    + destruct (params m !! "name") as [name|] eqn:Hname.
      * eexists _, _. split; [by apply find_by_name|].
        split_and!; try done.
        -- by destruct (api_list client _) as [|[|? [|? ?]]].
        -- intros c e ->%list_elem_of_singleton Hr _. simpl in Hr.
           destruct (api_list client _); by simplify_eq.
      * exists (Raise (KeyError "name")), [].
        rewrite app_nil_r. split; [by apply find_no_name|].
        split_and!; try done; simpl; try lia; by intros ?? ?%elem_of_nil.
    + eexists _, _. split; [by apply find_by_id|].
      split_and!; try done.
      * intros r. destruct (api_read client i) as [e|]; [|done].
        destruct (isinstance_NotFoundException e); [|done].
        destruct (params m !! "state"); [|done]. by case_decide.
      * intros c e ->%list_elem_of_singleton Hr Hnf. simpl in Hr.
        destruct (api_read client i) as [e'|]; simplify_eq.
        destruct (isinstance_NotFoundException e) eqn:He; [|done].
        destruct (Hnf eq_refl) as [[st Hst] Htol].
        rewrite Hst. case_decide; [|done]. subst.
        destruct Htol. split_and!; eauto.
  - exists (Raise (KeyError "id")), [].
    rewrite app_nil_r. split; [by apply find_no_id|].
    split_and!; try done; simpl; try lia; by intros ?? ?%elem_of_nil.
Qed.

(** ** The desired payload and the drift decision *)

Lemma model_dump_not_none (e : KerberosKey.t) (k : string) (v : value) :
  KerberosKey.model_dump e !! k = Some v → v ≠ VNone.
Proof.
  unfold KerberosKey.model_dump. intros Hk%elem_of_list_to_map_2.
  apply list_elem_of_omap in Hk as ([n o] & Hin & Ho).
  destruct o as [v'|]; simplify_eq/=.
  repeat (apply elem_of_cons in Hin as [Hin|Hin]);
    [..|by apply elem_of_nil in Hin];
    injection Hin as -> Hv; symmetry in Hv;
    by apply fmap_Some in Hv as (? & _ & ->).
Qed.

Lemma is_changed_true (existing payload : dict) :
  is_changed existing payload = true ↔
  ∃ k v, payload !! k = Some v ∧ existing !! k ≠ Some v.
Proof.
  unfold is_changed. rewrite existsb_exists. split.
  - intros ([k v] & Hin%list_elem_of_In%elem_of_map_to_list & Hne%bool_decide_eq_true).
    by exists k, v.
  - intros (k & v & Hk & Hne). exists (k, v). split.
    + by apply list_elem_of_In, elem_of_map_to_list.
    + by apply bool_decide_eq_true.
Qed.

Lemma payload_changed_eq m calls :
  payload_changed (m, calls) = (Return (drift m), (m, calls)).
Proof.
  unfold payload_changed, drift, get_self, mbind, M_bind. mcbn.
  by destruct (_existing m).
Qed.

(** The serialized resource, key by key: each attribute that is not [None]
    under its name, and nothing else. *)
Lemma model_dump_fields (e : KerberosKey.t) :
  KerberosKey.model_dump e !! "algorithm" = VStr <$> KerberosKey.algorithm e ∧
  KerberosKey.model_dump e !! "comment" = VStr <$> KerberosKey.comment e ∧
  KerberosKey.model_dump e !! "domain" = VStr <$> KerberosKey.domain e ∧
  KerberosKey.model_dump e !! "id" = VStr <$> KerberosKey.id e ∧
  KerberosKey.model_dump e !! "principal" = VStr <$> KerberosKey.principal e ∧
  KerberosKey.model_dump e !! "tags" = VDict <$> KerberosKey.tags e ∧
  KerberosKey.model_dump e !! "uploaded_at" = VStr <$> KerberosKey.uploaded_at e ∧
  KerberosKey.model_dump e !! "version" = VInt <$> KerberosKey.version e.
Proof.
  destruct e as [a c d i p t u v].
  destruct a, c, d, i, p, t, u, v; split_and!; reflexivity.
Qed.

Lemma model_dump_other (e : KerberosKey.t) (k : string) :
  k ∉ ["algorithm"; "comment"; "domain"; "id"; "principal"; "tags";
       "uploaded_at"; "version"] →
  KerberosKey.model_dump e !! k = None.
Proof.
  intros Hk. apply eq_None_not_Some. intros [v Hv].
  unfold KerberosKey.model_dump in Hv. apply elem_of_list_to_map_2 in Hv.
  apply list_elem_of_omap in Hv as ([n o] & Hin & Ho).
  destruct o as [v'|]; simplify_eq/=. apply Hk.
  repeat (apply elem_of_cons in Hin as [Hin|Hin];
          [injection Hin as -> _; by apply (bool_decide_unpack _)|]).
  by apply elem_of_nil in Hin.
Qed.

(** C7: the drift decision is true when no resource exists; otherwise it
    is true exactly when some key of the desired payload is missing from
    the serialized resource or has another value there.  The serialized
    resource is the mapping of the attributes of the resource that are not
    [None], each under its name, and holds nothing else, so no [None]
    value.  A resource that agrees with another on the attributes that the
    payload names gives the same decision, whatever its other
    attributes. *)
Theorem payload_changed_drift (m : KerberosModule) (calls : list call) :
  (_existing m = None →
     payload_changed (m, calls) = (Return true, (m, calls))) ∧
  (∀ e, _existing m = Some e →
     ∃ b, payload_changed (m, calls) = (Return b, (m, calls)) ∧
       (b = true ↔
        ∃ k v, _payload_params m !! k = Some v ∧
          (KerberosKey.model_dump e !! k = None ∨
           ∃ v', KerberosKey.model_dump e !! k = Some v' ∧ v' ≠ v))) ∧
  (∀ e,
     KerberosKey.model_dump e !! "algorithm" = VStr <$> KerberosKey.algorithm e ∧
     KerberosKey.model_dump e !! "comment" = VStr <$> KerberosKey.comment e ∧
     KerberosKey.model_dump e !! "domain" = VStr <$> KerberosKey.domain e ∧
     KerberosKey.model_dump e !! "id" = VStr <$> KerberosKey.id e ∧
     KerberosKey.model_dump e !! "principal" = VStr <$> KerberosKey.principal e ∧
     KerberosKey.model_dump e !! "tags" = VDict <$> KerberosKey.tags e ∧
     KerberosKey.model_dump e !! "uploaded_at" = VStr <$> KerberosKey.uploaded_at e ∧
     KerberosKey.model_dump e !! "version" = VInt <$> KerberosKey.version e ∧
     ∀ k, k ∉ ["algorithm"; "comment"; "domain"; "id"; "principal"; "tags";
               "uploaded_at"; "version"] →
          KerberosKey.model_dump e !! k = None) ∧
  (∀ e k v, KerberosKey.model_dump e !! k = Some v → v ≠ VNone) ∧
  (∀ e e',
     (∀ k, is_Some (_payload_params m !! k) →
        KerberosKey.model_dump e !! k = KerberosKey.model_dump e' !! k) →
     (payload_changed (with_existing (Some e) m, calls)).1 =
     (payload_changed (with_existing (Some e') m, calls)).1) ∧
  (∀ e e',
     (is_Some (_payload_params m !! "algorithm") →
        KerberosKey.algorithm e = KerberosKey.algorithm e') →
     (is_Some (_payload_params m !! "comment") →
        KerberosKey.comment e = KerberosKey.comment e') →
     (is_Some (_payload_params m !! "domain") →
        KerberosKey.domain e = KerberosKey.domain e') →
     (is_Some (_payload_params m !! "id") →
        KerberosKey.id e = KerberosKey.id e') →
     (is_Some (_payload_params m !! "principal") →
        KerberosKey.principal e = KerberosKey.principal e') →
     (is_Some (_payload_params m !! "tags") →
        KerberosKey.tags e = KerberosKey.tags e') →
     (is_Some (_payload_params m !! "uploaded_at") →
        KerberosKey.uploaded_at e = KerberosKey.uploaded_at e') →
     (is_Some (_payload_params m !! "version") →
        KerberosKey.version e = KerberosKey.version e') →
     (payload_changed (with_existing (Some e) m, calls)).1 =
     (payload_changed (with_existing (Some e') m, calls)).1).
Proof.
  assert (∀ e e',
     (∀ k, is_Some (_payload_params m !! k) →
        KerberosKey.model_dump e !! k = KerberosKey.model_dump e' !! k) →
     (payload_changed (with_existing (Some e) m, calls)).1 =
     (payload_changed (with_existing (Some e') m, calls)).1) as Hdump.
  { intros e e' Hagree. rewrite !payload_changed_eq. unfold drift. simpl. f_equal.
    apply eq_true_iff_eq. rewrite !is_changed_true.
    split; intros (k & v & Hk & Hne); exists k, v; (split; [done|]).
    + by rewrite <-Hagree by eauto.
    + by rewrite Hagree by eauto. }
  split_and!.
  - intros He. rewrite payload_changed_eq. unfold drift. by rewrite He.
  - intros e He. eexists. split; [apply payload_changed_eq|].
    unfold drift. rewrite He, is_changed_true.
    split; intros (k & v & Hk & Hne); exists k, v; (split; [done|]).
    + destruct (KerberosKey.model_dump e !! k) as [v'|]; [right|by left].
      exists v'. split; [done|]. congruence.
    + destruct Hne as [->|(v' & -> & ?)]; congruence.
  - intros e. destruct (model_dump_fields e) as (? & ? & ? & ? & ? & ? & ? & ?).
    split_and!; [done..|]. apply model_dump_other.
  - apply model_dump_not_none.
  - exact Hdump.
  - intros e e' Ha Hc Hd Hi Hp Ht Hu Hv. apply Hdump. intros k Hk.
    destruct (decide (k ∈ ["algorithm"; "comment"; "domain"; "id"; "principal";
                           "tags"; "uploaded_at"; "version"])) as [Hin|Hout].
    + repeat (apply elem_of_cons in Hin as [->|Hin]);
        [..|by apply elem_of_nil in Hin].
      * destruct (model_dump_fields e) as (-> & _).
        destruct (model_dump_fields e') as (-> & _). by rewrite Ha.
      * destruct (model_dump_fields e) as (_ & -> & _).
        destruct (model_dump_fields e') as (_ & -> & _). by rewrite Hc.
      * destruct (model_dump_fields e) as (_ & _ & -> & _).
        destruct (model_dump_fields e') as (_ & _ & -> & _). by rewrite Hd.
      * destruct (model_dump_fields e) as (_ & _ & _ & -> & _).
        destruct (model_dump_fields e') as (_ & _ & _ & -> & _). by rewrite Hi.
      * destruct (model_dump_fields e) as (_ & _ & _ & _ & -> & _).
        destruct (model_dump_fields e') as (_ & _ & _ & _ & -> & _). by rewrite Hp.
      * destruct (model_dump_fields e) as (_ & _ & _ & _ & _ & -> & _).
        destruct (model_dump_fields e') as (_ & _ & _ & _ & _ & -> & _). by rewrite Ht.
      * destruct (model_dump_fields e) as (_ & _ & _ & _ & _ & _ & -> & _).
        destruct (model_dump_fields e') as (_ & _ & _ & _ & _ & _ & -> & _).
        by rewrite Hu.
      * destruct (model_dump_fields e) as (_ & _ & _ & _ & _ & _ & _ & ->).
        destruct (model_dump_fields e') as (_ & _ & _ & _ & _ & _ & _ & ->).
        by rewrite Hv.
    + by rewrite !model_dump_other.
Qed.

Lemma payload_params_of_lookup (p : dict) (k : string) (v : value) :
  payload_params_of p !! k = Some v ↔
  p !! k = Some v ∧ v ≠ VNone ∧ k ∉ exclude.
Proof. unfold payload_params_of. by rewrite map_lookup_filter_Some. Qed.

(** What [run_command] does to the module object: it assigns [existing]
    and nothing else. *)
Lemma run_command_frame m calls :
  ∃ out ex new,
    run_command (m, calls) = (out, (with_existing ex m, calls ++ new)).
Proof.
  rewrite run_command_eq.
  destruct (find_frame m calls) as (o & new & -> & _).
  destruct o as [ex|e|r|s]; simpl.
  - destruct (params m !! "state") as [st|] eqn:Hst.
    + pose proof (reconcile_eq initial_result (with_existing ex m) (calls ++ new) st Hst) as ->.
      simpl. destruct (check_mode m); simpl; [by eexists _, ex, new|].
      destruct (answer _ _) as [[c [e|item]]|]; simpl.
      * destruct (isinstance_ApiException e); eexists _, ex, (new ++ [c]);
          by rewrite (assoc_L (++)).
      * eexists _, ex, (new ++ [c]); by rewrite (assoc_L (++)).
      * by eexists _, ex, new.
    + rewrite reconcile_no_state by done. simpl. by eexists _, ex, new.
  - exists (if isinstance_ApiException e then FailJson (failed_msg e) else Raise e),
      (_existing m), new.
    destruct m. by destruct (isinstance_ApiException e).
  - exists (ExitJson r), (_existing m), new. by destruct m.
  - exists (FailJson s), (_existing m), new. by destruct m.
Qed.

(** C8: the desired payload holds exactly the parameters whose value is not
    [None] and whose name is none of [state], [csp_url], [api_key] and
    [id]; a parameter that is unset is not in it.  [__init__] builds it,
    and [run_command] leaves it and the model built from it as they are. *)
Theorem payload_params_exact (p : dict) (cm : bool) :
  (∀ k v, _payload_params (init p cm) !! k = Some v ↔
     p !! k = Some v ∧ v ≠ VNone ∧
     k ∉ ["state"; "csp_url"; "api_key"; "id"]) ∧
  (∀ k, p !! k = Some VNone → _payload_params (init p cm) !! k = None) ∧
  (∀ k, k ∈ ["state"; "csp_url"; "api_key"; "id"] →
     _payload_params (init p cm) !! k = None) ∧
  _payload_params (main p cm).2.1 = _payload_params (init p cm) ∧
  _payload (main p cm).2.1 = _payload (init p cm).
Proof.
  split_and!.
  - intros k v. apply payload_params_of_lookup.
  - intros k Hk. simpl. apply eq_None_not_Some. intros [v Hv].
    apply payload_params_of_lookup in Hv as (Hv & Hne & _). congruence.
  - intros k Hk. simpl. apply eq_None_not_Some. intros [v Hv].
    by apply payload_params_of_lookup in Hv as (_ & _ & Hex).
  - unfold main. by destruct (run_command_frame (init p cm) []) as (? & ? & ? & ->).
  - unfold main. by destruct (run_command_frame (init p cm) []) as (? & ? & ? & ->).
Qed.

(** ** The reconciliation *)

(** [run_command] once [find] has returned: the closed form of
    [reconcile], the handler and the exit. *)
Lemma run_command_resolved m calls ex w1 st :
  find (m, calls) = (Return ex, w1) →
  params m !! "state" = Some st →
  run_command (m, calls) =
    let m1 := with_existing ex m in
    let a := decide_action st ex (drift m1) in
    if check_mode m then (ExitJson (mark a initial_result), (m1, w1.2))
    else match answer m1 a with
         | None =>
             (ExitJson (assembled m1 (VDict ∅) (mark a initial_result)), (m1, w1.2))
         | Some (c, inl e) =>
             (if isinstance_ApiException e then FailJson (failed_msg e) else Raise e,
              (m1, w1.2 ++ [c]))
         | Some (c, inr item) =>
             (ExitJson (assembled m1 item (mark a initial_result)), (m1, w1.2 ++ [c]))
         end.
Proof.
  intros Hf Hst. rewrite run_command_eq.
  destruct (find_frame m calls) as (o & new & Hf' & _).
  rewrite Hf in Hf'. simplify_eq. rewrite Hf. simpl.
  pose proof (reconcile_eq initial_result (with_existing ex m) (calls ++ new) st Hst) as ->.
  simpl. destruct (check_mode m); [done|].
  destruct (answer _ _) as [[c [e|item]]|]; simpl; [|done..].
  by destruct (isinstance_ApiException e).
Qed.

(** A run that exits has resolved the resource and read the state, and its
    result is the marked initial result, in check mode, or the assembled
    one. *)
Lemma run_command_exit m calls r w' :
  run_command (m, calls) = (ExitJson r, w') →
  ∃ ex st a item,
    (find (m, calls)).1 = Return ex ∧
    params m !! "state" = Some st ∧
    a = decide_action st ex (drift (with_existing ex m)) ∧
    if check_mode m then r = mark a initial_result
    else r = assembled (with_existing ex m) item (mark a initial_result).
Proof.
  intros Hr.
  destruct (find_frame m calls) as (o & new & Hf & Hex & _).
  destruct o as [ex|e|r0|s].
  - destruct (params m !! "state") as [st|] eqn:Hst.
    + rewrite (run_command_resolved _ _ _ _ _ Hf Hst) in Hr. simpl in Hr.
      exists ex, st, (decide_action st ex (drift (with_existing ex m))).
      rewrite Hf. destruct (check_mode m).
      * exists VNone. by simplify_eq.
      * destruct (answer _ _) as [[c [e|item]]|]; simplify_eq.
        -- by destruct (isinstance_ApiException e).
        -- by exists item.
        -- by exists (VDict ∅).
    + rewrite run_command_eq, Hf in Hr. simpl in Hr.
      by rewrite reconcile_no_state in Hr.
  - rewrite run_command_eq, Hf in Hr. simpl in Hr.
    by destruct (isinstance_ApiException e).
  - by destruct (Hex r0).
  - by rewrite run_command_eq, Hf in Hr.
Qed.

Lemma mark_changed a :
  mark a initial_result !! "changed" = Some (VBool (changes a)).
Proof. by destruct a. Qed.

Lemma mark_msg a :
  is_Some (mark a initial_result !! "msg") ↔ changes a = true.
Proof. destruct a; simpl; split; (done || by intros [? ?] || by eexists). Qed.

Lemma mark_object a : mark a initial_result !! "object" = Some (VDict ∅).
Proof. by destruct a. Qed.

Lemma mark_id a : mark a initial_result !! "id" = Some VNone.
Proof. by destruct a. Qed.

Lemma mark_diff a : mark a initial_result !! "diff" = None.
Proof. by destruct a. Qed.

Lemma assembled_lookup m item result :
  assembled m item result !! "id" = Some (id_of (_existing m) item) ∧
  assembled m item result !! "object" = Some item ∧
  (∃ before,
     assembled m item result !! "diff" =
       Some (VDict (<["before" := before]> (<["after" := item]> ∅)))) ∧
  assembled m item result !! "changed" = result !! "changed" ∧
  assembled m item result !! "msg" = result !! "msg".
Proof.
  unfold assembled. split_and!.
  - by rewrite lookup_insert_eq.
  - by rewrite lookup_insert_ne, lookup_insert_eq.
  - eexists. by rewrite !lookup_insert_ne, lookup_insert_eq by done.
  - by rewrite !lookup_insert_ne by done.
  - by rewrite !lookup_insert_ne by done.
Qed.

Lemma answer_call m a c resp :
  answer m a = Some (c, resp) →
  is_write c = true ∧
  raised_by client c = match resp with inl e => Some e | inr _ => None end.
Proof.
  destruct a; intros Ha; simplify_eq/=; (split; [done|]).
  - by destruct (api_create client _).
  - by destruct (api_update client _ _).
  - by destruct (api_delete client _).
Qed.

Lemma issued_app (calls new : list call) : issued calls (calls ++ new) = new.
Proof. unfold issued. by rewrite drop_app_length. Qed.

Lemma takes_action m calls ex w1 st :
  find (m, calls) = (Return ex, w1) →
  params m !! "state" = Some st →
  let m1 := with_existing ex m in
  let a := decide_action st ex (drift m1) in
  takes (m, calls)
    (match answer m1 a with Some (c, _) => [c] | None => [] end) (changes a).
Proof.
  intros Hf Hst m1 a. unfold takes.
  rewrite (run_command_resolved _ _ _ _ _ Hf Hst).
  destruct (find_frame m calls) as (o & new & Hf' & _ & Hnw & _).
  rewrite Hf in Hf'. simplify_eq. cbv zeta. simpl. fold m1. fold a.
  destruct (check_mode m) eqn:Hcm.
  { eexists _, _, new. split_and!; [done|done| |by eauto].
    intros r ?; simplify_eq. apply mark_changed. }
  destruct (answer m1 a) as [[c resp]|] eqn:Ha.
  - destruct (answer_call _ _ _ _ Ha) as [Hw Hr].
    assert (filter is_write (new ++ [c]) = [c]) as Hfil.
    { rewrite filter_app, Hnw. simpl. rewrite filter_cons_True by by rewrite Hw.
      done. }
    destruct resp as [e|item].
    + eexists _, _, (new ++ [c]). rewrite (assoc_L (++)). split_and!; [done|exact Hfil|..].
      * intros r ?. by destruct (isinstance_ApiException e).
      * intros [?|Hok]; [done|].
        by rewrite Hok in Hr by (by apply list_elem_of_singleton).
    + eexists _, _, (new ++ [c]). rewrite (assoc_L (++)). split_and!; [done|exact Hfil| |by eauto].
      intros r ?; simplify_eq.
      destruct (assembled_lookup m1 item (mark a initial_result)) as (_ & _ & _ & -> & _).
      apply mark_changed.
  - eexists _, _, new. split_and!; [done|done| |by eauto].
    intros r ?; simplify_eq.
    destruct (assembled_lookup m1 (VDict ∅) (mark a initial_result)) as (_ & _ & _ & -> & _).
    apply mark_changed.
Qed.

(** C1: once the resource is resolved, the pair of the existing resource
    and the declared state, with the drift decision, drives one action.
    Absent and present: create, changed.  Present and present without
    drift: nothing, unchanged.  Present and present with drift: update,
    changed.  Absent and absent: nothing, unchanged.  Present and absent:
    delete, changed.  The write of the action is the only write of the run,
    and check mode issues none. *)
Theorem run_command_transition (m : KerberosModule) (calls : list call)
    (ex : option KerberosKey.t) (w1 : world) :
  find (m, calls) = (Return ex, w1) →
  (params m !! "state" = Some (VStr "present") → ex = None →
     takes (m, calls) [Create (_payload m)] true) ∧
  (∀ e, params m !! "state" = Some (VStr "present") → ex = Some e →
     (payload_changed (with_existing ex m, w1.2)).1 = Return false →
     takes (m, calls) [] false) ∧
  (∀ e, params m !! "state" = Some (VStr "present") → ex = Some e →
     (payload_changed (with_existing ex m, w1.2)).1 = Return true →
     takes (m, calls) [Update (KerberosKey.id e) (_payload m)] true) ∧
  (params m !! "state" = Some (VStr "absent") → ex = None →
     takes (m, calls) [] false) ∧
  (∀ e, params m !! "state" = Some (VStr "absent") → ex = Some e →
     takes (m, calls) [Delete (KerberosKey.id e)] true).
Proof.
  intros Hf. split_and!.
  - intros Hst ->. by apply (takes_action _ _ _ _ _ Hf Hst).
  - intros e Hst -> Hd. rewrite payload_changed_eq in Hd. simpl in Hd.
    injection Hd as Hd.
    pose proof (takes_action _ _ _ _ _ Hf Hst) as Ht. cbv zeta in Ht.
    rewrite Hd in Ht. exact Ht.
  - intros e Hst -> Hd. rewrite payload_changed_eq in Hd. simpl in Hd.
    injection Hd as Hd.
    pose proof (takes_action _ _ _ _ _ Hf Hst) as Ht. cbv zeta in Ht.
    rewrite Hd in Ht. exact Ht.
  - intros Hst ->. by apply (takes_action _ _ _ _ _ Hf Hst).
  - intros e Hst ->. by apply (takes_action _ _ _ _ _ Hf Hst).
Qed.

(** C10: the result starts as [changed] false, [object] the empty mapping
    and [id] [None], and the result of every run that exits holds the three
    keys; in check mode [object] and [id] still hold these defaults. *)
Theorem exit_result_defaults (m : KerberosModule) (calls : list call)
    (r : dict) (w' : world) :
  run_command (m, calls) = (ExitJson r, w') →
  (initial_result !! "changed" = Some (VBool false) ∧
   initial_result !! "object" = Some (VDict ∅) ∧
   initial_result !! "id" = Some VNone) ∧
  ((∃ b, r !! "changed" = Some (VBool b)) ∧
   is_Some (r !! "object") ∧ is_Some (r !! "id")) ∧
  (check_mode m = true →
   r !! "object" = Some (VDict ∅) ∧ r !! "id" = Some VNone).
Proof.
  intros (ex & st & a & item & _ & Hst & Ha & Hr)%run_command_exit.
  split; [done|].
  destruct (check_mode m); subst r.
  - rewrite mark_changed, mark_object, mark_id. split_and!; eauto.
  - destruct (assembled_lookup (with_existing ex m) item (mark a initial_result))
      as (-> & -> & _ & -> & _).
    rewrite mark_changed. split_and!; eauto. done.
Qed.

(** C9, as the code has it: the result of every run that exits outside
    check mode holds [changed], [object], [id] and [diff] with its [before]
    and [after]; it holds [msg] exactly when [changed] is true, so the runs
    that change nothing report no message. *)
Theorem exit_result_surface (m : KerberosModule) (calls : list call)
    (r : dict) (w' : world) :
  check_mode m = false →
  run_command (m, calls) = (ExitJson r, w') →
  (∃ b, r !! "changed" = Some (VBool b)) ∧
  is_Some (r !! "object") ∧ is_Some (r !! "id") ∧
  (∃ before after,
     r !! "diff" = Some (VDict (<["before" := before]> (<["after" := after]> ∅)))) ∧
  (is_Some (r !! "msg") ↔ r !! "changed" = Some (VBool true)).
Proof.
  intros Hcm (ex & st & a & item & _ & Hst & Ha & Hr)%run_command_exit.
  rewrite Hcm in Hr. subst r.
  destruct (assembled_lookup (with_existing ex m) item (mark a initial_result))
    as (-> & -> & [before ->] & -> & ->).
  rewrite mark_changed, mark_msg. split_and!; eauto.
  split; [by intros ->|]. by intros [= ->].
Qed.

(** [find] reads the parameters and nothing else of the module object. *)
Lemma find_params_only m m' calls :
  params m = params m' →
  ∃ o new,
    find (m, calls) = (o, (m, calls ++ new)) ∧
    find (m', calls) = (o, (m', calls ++ new)).
Proof.
  intros Hp.
  destruct (params m !! "id") as [i|] eqn:Hid.
  - destruct (decide (i = VNone)) as [->|Hi].
    + destruct (params m !! "name") as [name|] eqn:Hname.
      * eexists _, _. split; [by apply find_by_name|].
        apply find_by_name; by rewrite <-Hp.
      * exists (Raise (KeyError "name")), []. rewrite !app_nil_r.
        split; apply find_no_name; by rewrite <-?Hp.
    + eexists _, _. split; [by apply find_by_id|].
      rewrite Hp. apply find_by_id; by rewrite <-?Hp.
  - exists (Raise (KeyError "id")), []. rewrite !app_nil_r.
    split; apply find_no_id; by rewrite <-?Hp.
Qed.

(** C2: in check mode a run whose resource is resolved exits right after
    the action is decided.  It issues no write and no call after the
    lookup; it reports [changed] as the action of the transition table has
    it, and as the run without check mode reports it when that run exits;
    the result has no [diff], [object] and [id] keep their initial values,
    and no key besides [msg] is added. *)
Theorem check_mode_reports_only (m : KerberosModule) (calls : list call)
    (ex : option KerberosKey.t) (w1 : world) (st : value) :
  check_mode m = true →
  find (m, calls) = (Return ex, w1) →
  params m !! "state" = Some st →
  ∃ r,
    run_command (m, calls) = (ExitJson r, (with_existing ex m, w1.2)) ∧
    filter is_write (issued calls w1.2) = [] ∧
    r !! "changed" =
      Some (VBool (changes (decide_action st ex (drift (with_existing ex m))))) ∧
    (∀ r0 w0,
       run_command (with_check_mode false m, calls) = (ExitJson r0, w0) →
       r0 !! "changed" = r !! "changed" ∧ r0 !! "msg" = r !! "msg") ∧
    r !! "diff" = None ∧
    r !! "object" = Some (VDict ∅) ∧
    r !! "id" = Some VNone ∧
    dom r ⊆ ({["changed"; "object"; "id"; "msg"]} : gset string).
Proof.
  intros Hcm Hf Hst.
  rewrite (run_command_resolved _ _ _ _ _ Hf Hst). cbv zeta. rewrite Hcm.
  set (a := decide_action st ex (drift (with_existing ex m))).
  exists (mark a initial_result). split_and!.
  - done.
  - destruct (find_frame m calls) as (o & new & Hf' & _ & Hnw & _).
    rewrite Hf in Hf'. simplify_eq. simpl. by rewrite issued_app.
  - apply mark_changed.
  - intros r0 w0 (ex' & st' & a' & item & Hf0 & Hst' & Ha' & Hr)%run_command_exit.
    simpl in Hr, Hst'. subst r0.
    destruct (find_params_only m (with_check_mode false m) calls eq_refl)
      as (o & new & Hf1 & Hf2).
    rewrite Hf2 in Hf0. rewrite Hf1 in Hf. simplify_eq/=.
    change (decide_action st ex (drift (with_existing ex (with_check_mode false m))))
      with a.
    by destruct (assembled_lookup (with_existing ex (with_check_mode false m)) item
              (mark a initial_result)) as (_ & _ & _ & -> & ->).
  - apply mark_diff.
  - apply mark_object.
  - apply mark_id.
  - destruct a; apply (bool_decide_unpack _); by vm_compute.
Qed.

(** ** Failures *)

(** C5: when the identifier is declared and the read by identifier answers
    not-found, [find] returns [None] if the declared state is absent, and
    the run then exits with [changed] false; for any other state [find]
    raises the not-found exception and the run fails with its status,
    reason and body. *)
Theorem find_not_found (m : KerberosModule) (calls : list call) (i : value)
    (status : Z) (reason body : string) (st : value) :
  params m !! "id" = Some i → i ≠ VNone →
  api_read client i = inl (NotFoundException status reason body) →
  params m !! "state" = Some st →
  (st = VStr "absent" →
     find (m, calls) = (Return None, (m, calls ++ [Read i])) ∧
     ∃ r, run_command (m, calls) =
            (ExitJson r, (with_existing None m, calls ++ [Read i])) ∧
          r !! "changed" = Some (VBool false)) ∧
  (st ≠ VStr "absent" →
     find (m, calls) =
       (Raise (NotFoundException status reason body), (m, calls ++ [Read i])) ∧
     run_command (m, calls) =
       (FailJson ("Failed to execute command: " +:+ pretty status +:+ " " +:+
                  reason +:+ " " +:+ body),
        (m, calls ++ [Read i]))).
Proof.
  intros Hid Hi Hread Hst.
  pose proof (find_by_id m calls i Hid Hi) as Hf.
  rewrite Hread, Hst in Hf. simpl in Hf. split.
  - intros ->. rewrite decide_True in Hf by done. split; [done|].
    rewrite (run_command_resolved _ _ _ _ _ Hf Hst). simpl.
    destruct (check_mode m); eexists; (split; [done|]).
    + done.
    + by destruct (assembled_lookup (with_existing None m) (VDict ∅) initial_result)
        as (_ & _ & _ & -> & _).
  - intros Hne. rewrite decide_False in Hf by done. split; [done|].
    by rewrite run_command_eq, Hf.
Qed.

(** A call of the service that raises an exception of the class
    [ApiException], the tolerated not-found apart, ends the run in
    [fail_json] with the message of the handler; it is the last call of
    the log and was issued once. *)
Lemma api_exception_is_fatal (m : KerberosModule) (calls : list call)
    (out : outcome unit) (w' : world) (c : call) (e : exn)
    (status : Z) (reason body : string) :
  run_command (m, calls) = (out, w') →
  c ∈ issued calls w'.2 →
  raised_by client c = Some e →
  e = ApiException status reason body ∨ e = NotFoundException status reason body →
  (isinstance_NotFoundException e = true →
   is_Some (params m !! "state") ∧ ¬ tolerated m c e) →
  out = FailJson ("Failed to execute command: " +:+ pretty status +:+ " " +:+
                  reason +:+ " " +:+ body) ∧
  (∃ pre, issued calls w'.2 = pre ++ [c] ∧ c ∉ pre) ∧
  (∀ r, out ≠ ExitJson r) ∧ (∀ e', out ≠ Raise e').
Proof.
  intros Hr Hc Hraise He Htol.
  assert (isinstance_ApiException e = true ∧
          failed_msg e = "Failed to execute command: " +:+ pretty status +:+ " " +:+
                         reason +:+ " " +:+ body) as [Hapi Hmsg].
  { by destruct He as [->| ->]. }
  assert (out = FailJson (failed_msg e) ∧ ∃ pre, issued calls w'.2 = pre ++ [c] ∧ c ∉ pre)
    as [-> Hpre]; [|by rewrite Hmsg].
  destruct (find_frame m calls) as (o & new & Hf & Hex & Hnw & Hlen & Hfail).
  assert (c ∈ new → o = Raise e) as Hnew by eauto.
  destruct o as [ex|e0|r0|s].
  - destruct (params m !! "state") as [st|] eqn:Hst; last first.
    { rewrite run_command_eq, Hf in Hr. simpl in Hr.
      rewrite reconcile_no_state in Hr by done. simplify_eq/=.
      rewrite issued_app in Hc. by specialize (Hnew Hc). }
    rewrite (run_command_resolved _ _ _ _ _ Hf Hst) in Hr. simpl in Hr.
    destruct (check_mode m).
    { simplify_eq/=. rewrite issued_app in Hc. by specialize (Hnew Hc). }
    destruct (answer _ _) as [[cw resp]|] eqn:Ha.
    + destruct (answer_call _ _ _ _ Ha) as [Hw Hrw].
      assert (issued calls w'.2 = new ++ [cw]) as Hi.
      { destruct resp; simplify_eq/=; by rewrite <-(assoc_L (++)), issued_app. }
      rewrite Hi in Hc. apply elem_of_app in Hc as [Hc|Hc%list_elem_of_singleton];
        [by specialize (Hnew Hc)|]. subst cw.
      rewrite Hraise in Hrw. destruct resp as [e'|]; simplify_eq.
      rewrite Hapi. split; [done|]. exists new. split; [done|].
      intros Hin. assert (c ∈ filter is_write new) as Hin'.
      { apply list_elem_of_filter. by rewrite Hw. }
      rewrite Hnw in Hin'. by apply elem_of_nil in Hin'.
    + simplify_eq/=. rewrite issued_app in Hc. by specialize (Hnew Hc).
  - rewrite run_command_eq, Hf in Hr. simpl in Hr.
    assert (w'.2 = calls ++ new) as Hw'.
    { by destruct (isinstance_ApiException e0); simplify_eq. }
    rewrite Hw', issued_app in Hc |- *.
    specialize (Hnew Hc). simplify_eq. rewrite Hapi in Hr. simplify_eq.
    split; [done|]. exists [].
    destruct new as [|c' [|? ?]]; simpl in Hlen; [by apply elem_of_nil in Hc| |lia].
    apply list_elem_of_singleton in Hc as ->. split; [done|]. by intros ?%elem_of_nil.
  - by destruct (Hex r0).
  - rewrite run_command_eq, Hf in Hr. simplify_eq/=.
    rewrite issued_app in Hc. by specialize (Hnew Hc).
Qed.

(** C6: a call of the service that fails with an API failure, a structured
    error with a status, a reason and a body, ends the run at once: the run
    fails with one message that carries the status, the reason and the
    body; the failing call is the last call of the log and was issued once,
    so nothing is retried; the run neither exits with a result, changed or
    not, nor lets the exception through. *)
Theorem api_failure_is_fatal (m : KerberosModule) (calls : list call)
    (out : outcome unit) (w' : world) (c : call)
    (status : Z) (reason body : string) :
  run_command (m, calls) = (out, w') →
  c ∈ issued calls w'.2 →
  raised_by client c = Some (ApiException status reason body) →
  out = FailJson ("Failed to execute command: " +:+ pretty status +:+ " " +:+
                  reason +:+ " " +:+ body) ∧
  (∃ pre, issued calls w'.2 = pre ++ [c] ∧ c ∉ pre) ∧
  (∀ r, out ≠ ExitJson r) ∧ (∀ e', out ≠ Raise e').
Proof.
  intros Hr Hc Hraise.
  apply (api_exception_is_fatal m calls out w' c _ status reason body Hr Hc Hraise).
  - by left.
  - done.
Qed.

(** C3, where the code departs from it: the argument specification
    declares no option [name], so for a task that declares no identifier
    the subscript [self.params["name"]] raises [KeyError] before any lookup
    is issued, and [run_command], which catches [ApiException] only, lets
    it through. *)
Theorem find_without_id_key_error (supplied : dict) (cm : bool) :
  supplied !! "id" = None ∨ supplied !! "id" = Some VNone →
  find (init (module_params supplied) cm, []) =
    (Raise (KeyError "name"), (init (module_params supplied) cm, [])) ∧
  main (module_params supplied) cm =
    (Raise (KeyError "name"), (init (module_params supplied) cm, [])).
Proof.
  intros Hid.
  assert (find (init (module_params supplied) cm, []) =
          (Raise (KeyError "name"), (init (module_params supplied) cm, []))) as Hf.
  { apply find_no_name; [|done]. simpl.
    unfold module_params. simpl.
    rewrite lookup_insert_eq. by destruct Hid as [-> | ->]. }
  split; [done|]. unfold main. by rewrite run_command_eq, Hf.
Qed.

(** ** Further properties of the lookup and of the run *)

Lemma model_dump_id (k : KerberosKey.t) :
  KerberosKey.model_dump k !! "id" = VStr <$> KerberosKey.id k.
Proof.
  destruct k as [a c d i p t u v].
  destruct a, c, d, i, p, t, u, v; reflexivity.
Qed.

(** The whole run by the outcome of [find]. *)
Lemma run_command_cases m calls :
  ∃ o new,
    find (m, calls) = (o, (m, calls ++ new)) ∧
    filter is_write new = [] ∧ length new ≤ 1 ∧
    run_command (m, calls) =
      match o with
      | Return ex =>
          let m1 := with_existing ex m in
          match params m !! "state" with
          | None => (Raise (KeyError "state"), (m1, calls ++ new))
          | Some st =>
              let a := decide_action st ex (drift m1) in
              if check_mode m then (ExitJson (mark a initial_result), (m1, calls ++ new))
              else match answer m1 a with
                   | None =>
                       (ExitJson (assembled m1 (VDict ∅) (mark a initial_result)),
                        (m1, calls ++ new))
                   | Some (c, inl e) =>
                       (if isinstance_ApiException e then FailJson (failed_msg e)
                        else Raise e, (m1, (calls ++ new) ++ [c]))
                   | Some (c, inr item) =>
                       (ExitJson (assembled m1 item (mark a initial_result)),
                        (m1, (calls ++ new) ++ [c]))
                   end
          end
      | Raise e =>
          (if isinstance_ApiException e then FailJson (failed_msg e) else Raise e,
           (m, calls ++ new))
      | ExitJson r => (ExitJson r, (m, calls ++ new))
      | FailJson s => (FailJson s, (m, calls ++ new))
      end.
Proof.
  destruct (find_frame m calls) as (o & new & Hf & _ & Hnw & Hlen & _).
  exists o, new. split_and!; [done..|].
  destruct o as [ex|e|r|s].
  - destruct (params m !! "state") as [st|] eqn:Hst.
    + by rewrite (run_command_resolved _ _ _ _ _ Hf Hst).
    + rewrite run_command_eq, Hf. simpl. by rewrite reconcile_no_state.
  - rewrite run_command_eq, Hf. simpl. by destruct (isinstance_ApiException e).
  - by rewrite run_command_eq, Hf.
  - by rewrite run_command_eq, Hf.
Qed.

(** X1: [find] on its own is a pure lookup.  It leaves the module object as
    it is, never exits, and only appends to the log: nothing when the
    parameter it needs is missing, which is a [KeyError]; one read by
    identifier when [id] is set, whatever [name] holds; one list call with
    the filter on [name] otherwise. *)
Theorem find_is_read_only (m : KerberosModule) (calls : list call) :
  ∃ o new,
    find (m, calls) = (o, (m, calls ++ new)) ∧
    (∀ r, o ≠ ExitJson r) ∧
    match params m !! "id" with
    | None => new = [] ∧ o = Raise (KeyError "id")
    | Some VNone =>
        match params m !! "name" with
        | None => new = [] ∧ o = Raise (KeyError "name")
        | Some name => new = [List (name_filter name)]
        end
    | Some i => new = [Read i]
    end.
Proof.
  destruct (params m !! "id") as [i|] eqn:Hid.
  - destruct (decide (i = VNone)) as [->|Hi].
    + destruct (params m !! "name") as [name|] eqn:Hname.
      * eexists _, _. split; [by apply find_by_name|]. split; [|done].
        by destruct (api_list client _) as [|[|? [|? ?]]].
      * exists (Raise (KeyError "name")), []. rewrite app_nil_r.
        split; [by apply find_no_name|]. done.
    + eexists _, _. split; [by apply find_by_id|]. split; [|by destruct i].
      intros r. destruct (api_read client i) as [e|]; [|done].
      destruct (isinstance_NotFoundException e); [|done].
      destruct (params m !! "state"); [|done]. by case_decide.
  - exists (Raise (KeyError "id")), []. rewrite app_nil_r.
    split; [by apply find_no_id|]. done.
Qed.

(** X2: a lookup by name that matches several resources is fatal.  Whatever
    the state and the check mode, the run fails with the message that lists
    all the matches, and the list call is its only call: nothing is
    written. *)
Theorem lookup_by_name_ambiguous (m : KerberosModule) (calls : list call)
    (name : value) (results : list KerberosKey.t) :
  params m !! "id" = Some VNone →
  params m !! "name" = Some name →
  api_list client (name_filter name) = inr results →
  1 < length results →
  run_command (m, calls) =
    (FailJson ("Found multiple Kerberos: [" +:+
               String.concat ", " (map py_repr results) +:+ "]"),
     (m, calls ++ [List (name_filter name)])).
Proof.
  intros Hid Hname Hlist Hlen.
  pose proof (find_by_name m calls name Hid Hname) as Hf. rewrite Hlist in Hf.
  destruct results as [|r [|r' l]]; simpl in Hlen; [lia..|].
  by rewrite run_command_eq, Hf.
Qed.

(** X3: the calls of a run.  A run only appends to the log, at most two
    calls: at most one write, which is then the last call, and none at all
    in check mode. *)
Theorem run_command_calls (m : KerberosModule) (calls : list call) :
  ∃ out m' new,
    run_command (m, calls) = (out, (m', calls ++ new)) ∧
    length new ≤ 2 ∧
    length (filter is_write new) ≤ 1 ∧
    (∀ c, c ∈ filter is_write new → last new = Some c) ∧
    (check_mode m = true → filter is_write new = []).
Proof.
  destruct (run_command_cases m calls) as (o & new & _ & Hnw & Hlen & ->).
  assert (∀ cw, is_write cw = true →
            length (new ++ [cw]) ≤ 2 ∧
            length (filter is_write (new ++ [cw])) ≤ 1 ∧
            ∀ c, c ∈ filter is_write (new ++ [cw]) → last (new ++ [cw]) = Some c)
    as Hwrite.
  { intros cw Hw. rewrite filter_app, Hnw, length_app, last_snoc. simpl.
    rewrite filter_cons_True by by rewrite Hw. simpl.
    split_and!; [lia|lia|]. by intros c ->%list_elem_of_singleton. }
  assert (length new ≤ 2 ∧ length (filter is_write new) ≤ 1 ∧
          (∀ c, c ∈ filter is_write new → last new = Some c) ∧
          (check_mode m = true → filter is_write new = [])) as Hread.
  { rewrite Hnw. split_and!; [lia|simpl; lia| |done]. by intros c ?%elem_of_nil. }
  destruct o as [ex|e|r|s]; try by eexists _, _, new.
  cbv zeta. destruct (params m !! "state") as [st|]; [|by eexists _, _, new].
  destruct (check_mode m) eqn:Hcm; [by eexists _, _, new|].
  destruct (answer _ _) as [[cw resp]|] eqn:Ha; [|by eexists _, _, new].
  destruct (answer_call _ _ _ _ Ha) as [Hw _].
  destruct (Hwrite cw Hw) as (? & ? & ?).
  destruct resp; eexists _, _, (new ++ [cw]); rewrite (assoc_L (++));
    by split_and!.
Qed.

(** X4: what a create returns.  Outside check mode, with the state present
    and no resource found, one create is issued with the payload; when the
    service answers with a resource, the run exits with [changed] true, the
    message of the creation, the serialized resource as [object] and as
    [diff.after], the empty mapping as [diff.before], and as [id] the
    identifier of the created resource, [None] if it has none. *)
Theorem create_result (m : KerberosModule) (calls : list call) (w1 : world)
    (k : KerberosKey.t) :
  check_mode m = false →
  params m !! "state" = Some (VStr "present") →
  find (m, calls) = (Return None, w1) →
  api_create client (_payload m) = inr k →
  run_command (m, calls) =
    (ExitJson
       (<["id" := of_opt_str (KerberosKey.id k)]>
          (<["object" := VDict (KerberosKey.model_dump k)]>
             (<["diff" := VDict (<["before" := VDict ∅]>
                                   (<["after" := VDict (KerberosKey.model_dump k)]> ∅))]>
                (<["msg" := VStr "Kerberos created"]>
                   (<["changed" := VBool true]> initial_result))))),
     (with_existing None m, w1.2 ++ [Create (_payload m)])).
Proof.
  intros Hcm Hst Hf Hcreate.
  rewrite (run_command_resolved _ _ _ _ _ Hf Hst). simpl.
  rewrite Hcm, Hcreate. unfold assembled, id_of. simpl.
  rewrite model_dump_id. by destruct (KerberosKey.id k).
Qed.

(** X5: what an update returns.  Outside check mode, with the state
    present, a resource found and the drift decision true, one update is
    issued, addressed to the identifier of the found resource and carrying
    the payload; when the service answers with a resource, the run exits
    with [changed] true, the message of the update, the answer as [object]
    and [diff.after], the found resource as [diff.before], and as [id] the
    identifier of the found resource, not that of the answer.  The module
    object keeps the found resource as [existing]. *)
Theorem update_result (m : KerberosModule) (calls : list call) (w1 : world)
    (e k : KerberosKey.t) :
  check_mode m = false →
  params m !! "state" = Some (VStr "present") →
  find (m, calls) = (Return (Some e), w1) →
  (payload_changed (with_existing (Some e) m, w1.2)).1 = Return true →
  api_update client (KerberosKey.id e) (_payload m) = inr k →
  run_command (m, calls) =
    (ExitJson
       (<["id" := of_opt_str (KerberosKey.id e)]>
          (<["object" := VDict (KerberosKey.model_dump k)]>
             (<["diff" := VDict (<["before" := VDict (KerberosKey.model_dump e)]>
                                   (<["after" := VDict (KerberosKey.model_dump k)]> ∅))]>
                (<["msg" := VStr "Kerberos updated"]>
                   (<["changed" := VBool true]> initial_result))))),
     (with_existing (Some e) m,
      w1.2 ++ [Update (KerberosKey.id e) (_payload m)])).
Proof.
  intros Hcm Hst Hf Hd Hupdate.
  rewrite payload_changed_eq in Hd. injection Hd as Hd.
  rewrite (run_command_resolved _ _ _ _ _ Hf Hst). cbv zeta.
  rewrite Hcm, Hd. simpl. by rewrite Hupdate.
Qed.

(** X6: what a delete returns.  Outside check mode, with the state absent
    and a resource found, one delete is issued, addressed to the identifier
    of the found resource; when the service accepts it, the run exits with
    [changed] true, the message of the deletion, the empty mapping as
    [object] and [diff.after], the found resource as [diff.before], and its
    identifier as [id]. *)
Theorem delete_result (m : KerberosModule) (calls : list call) (w1 : world)
    (e : KerberosKey.t) :
  check_mode m = false →
  params m !! "state" = Some (VStr "absent") →
  find (m, calls) = (Return (Some e), w1) →
  api_delete client (KerberosKey.id e) = inr tt →
  run_command (m, calls) =
    (ExitJson
       (<["id" := of_opt_str (KerberosKey.id e)]>
          (<["object" := VDict ∅]>
             (<["diff" := VDict (<["before" := VDict (KerberosKey.model_dump e)]>
                                   (<["after" := VDict ∅]> ∅))]>
                (<["msg" := VStr "Kerberos deleted"]>
                   (<["changed" := VBool true]> initial_result))))),
     (with_existing (Some e) m, w1.2 ++ [Delete (KerberosKey.id e)])).
Proof.
  intros Hcm Hst Hf Hdelete.
  rewrite (run_command_resolved _ _ _ _ _ Hf Hst). simpl.
  by rewrite Hcm, Hdelete.
Qed.

(** X7: what a run that has nothing to do returns.  Outside check mode,
    when a resource is found without drift for the state present, or none
    is found for the state absent, the run issues no call after the lookup
    and exits with the initial [changed] and [object], no message, the
    found resource, or the empty mapping, as [diff.before], the empty
    mapping as [diff.after], and the identifier of the found resource, or
    [None], as [id]. *)
Theorem noop_result (m : KerberosModule) (calls : list call) (w1 : world)
    (ex : option KerberosKey.t) :
  check_mode m = false →
  find (m, calls) = (Return ex, w1) →
  (params m !! "state" = Some (VStr "present") ∧ is_Some ex ∧
   (payload_changed (with_existing ex m, w1.2)).1 = Return false) ∨
  (params m !! "state" = Some (VStr "absent") ∧ ex = None) →
  run_command (m, calls) =
    (ExitJson
       (<["id" := of_opt_str (ex ≫= KerberosKey.id)]>
          (<["object" := VDict ∅]>
             (<["diff" := VDict (<["before" :=
                                     match ex with
                                     | Some e => VDict (KerberosKey.model_dump e)
                                     | None => VDict ∅
                                     end]>
                                   (<["after" := VDict ∅]> ∅))]>
                initial_result))),
     (with_existing ex m, w1.2)).
Proof.
  intros Hcm Hf [(Hst & [e ->] & Hd)|[Hst ->]].
  - rewrite payload_changed_eq in Hd. injection Hd as Hd.
    rewrite (run_command_resolved _ _ _ _ _ Hf Hst). cbv zeta.
    by rewrite Hcm, Hd.
  - rewrite (run_command_resolved _ _ _ _ _ Hf Hst). simpl. by rewrite Hcm.
Qed.



(** A call that raises ends the run, the tolerated not-found apart: in
    [fail_json] for an [ApiException], in the exception itself
    otherwise. *)
Lemma raising_call_ends_run m calls out w' c e :
  run_command (m, calls) = (out, w') →
  c ∈ issued calls w'.2 →
  raised_by client c = Some e →
  (isinstance_NotFoundException e = true →
   is_Some (params m !! "state") ∧ ¬ tolerated m c e) →
  out = (if isinstance_ApiException e then FailJson (failed_msg e) else Raise e) ∧
  ∃ pre, issued calls w'.2 = pre ++ [c] ∧ c ∉ pre.
Proof.
  intros Hr Hc Hraise Htol.
  destruct (find_frame m calls) as (o & new & Hf & Hex & Hnw & Hlen & Hfail).
  assert (c ∈ new → o = Raise e) as Hnew by eauto.
  destruct o as [ex|e0|r0|s].
  - destruct (params m !! "state") as [st|] eqn:Hst; last first.
    { rewrite run_command_eq, Hf in Hr. simpl in Hr.
      rewrite reconcile_no_state in Hr by done. simplify_eq/=.
      rewrite issued_app in Hc. by specialize (Hnew Hc). }
    rewrite (run_command_resolved _ _ _ _ _ Hf Hst) in Hr. simpl in Hr.
    destruct (check_mode m).
    { simplify_eq/=. rewrite issued_app in Hc. by specialize (Hnew Hc). }
    destruct (answer _ _) as [[cw resp]|] eqn:Ha.
    + destruct (answer_call _ _ _ _ Ha) as [Hw Hrw].
      assert (issued calls w'.2 = new ++ [cw]) as Hi.
      { destruct resp; simplify_eq/=; by rewrite <-(assoc_L (++)), issued_app. }
      rewrite Hi in Hc. apply elem_of_app in Hc as [Hc|Hc%list_elem_of_singleton];
        [by specialize (Hnew Hc)|]. subst cw.
      rewrite Hraise in Hrw. destruct resp as [e'|]; simplify_eq.
      split; [done|]. exists new. split; [done|].
      intros Hin. assert (c ∈ filter is_write new) as Hin'.
      { apply list_elem_of_filter. by rewrite Hw. }
      rewrite Hnw in Hin'. by apply elem_of_nil in Hin'.
    + simplify_eq/=. rewrite issued_app in Hc. by specialize (Hnew Hc).
  - rewrite run_command_eq, Hf in Hr. simpl in Hr.
    assert (w'.2 = calls ++ new) as Hw'.
    { by destruct (isinstance_ApiException e0); simplify_eq. }
    rewrite Hw', issued_app in Hc |- *.
    specialize (Hnew Hc). simplify_eq.
    split; [by destruct (isinstance_ApiException e); simplify_eq|]. exists [].
    destruct new as [|c' [|? ?]]; simpl in Hlen; [by apply elem_of_nil in Hc| |lia].
    apply list_elem_of_singleton in Hc as ->. split; [done|]. by intros ?%elem_of_nil.
  - by destruct (Hex r0).
  - rewrite run_command_eq, Hf in Hr. simplify_eq/=.
    rewrite issued_app in Hc. by specialize (Hnew Hc).
Qed.

(** X9: an exception of a call that is no [ApiException] is not turned
    into a failure report.  It leaves the run as it is, the call that
    raised it is the last call of the log and was issued once, and nothing
    is written after it. *)
Theorem foreign_exception_passes (m : KerberosModule) (calls : list call)
    (out : outcome unit) (w' : world) (c : call) (e : exn) :
  run_command (m, calls) = (out, w') →
  c ∈ issued calls w'.2 →
  raised_by client c = Some e →
  isinstance_ApiException e = false →
  out = Raise e ∧ ∃ pre, issued calls w'.2 = pre ++ [c] ∧ c ∉ pre.
Proof.
  intros Hr Hc Hraise Hapi.
  destruct (raising_call_ends_run m calls out w' c e Hr Hc Hraise) as [Hout Hpre].
  { by destruct e. }
  by rewrite Hapi in Hout.
Qed.

(** X10: the not-found is tolerated for the read by identifier only.  A
    list, create, update or delete call that answers not-found ends the run
    in [fail_json], also when the declared state is absent: a resource that
    disappears between the lookup and its deletion is reported as a
    failure. *)
Theorem not_found_after_lookup_is_fatal (m : KerberosModule) (calls : list call)
    (out : outcome unit) (w' : world) (c : call)
    (status : Z) (reason body : string) :
  run_command (m, calls) = (out, w') →
  is_Some (params m !! "state") →
  c ∈ issued calls w'.2 →
  (∀ i, c ≠ Read i) →
  raised_by client c = Some (NotFoundException status reason body) →
  out = FailJson ("Failed to execute command: " +:+ pretty status +:+ " " +:+
                  reason +:+ " " +:+ body) ∧
  ∃ pre, issued calls w'.2 = pre ++ [c] ∧ c ∉ pre.
Proof.
  intros Hr Hst Hc Hread Hraise.
  apply (raising_call_ends_run m calls out w' c _ Hr Hc Hraise).
  intros _. split; [done|]. intros ([i ->] & _). by apply (Hread i).
Qed.

End Reconciler.

(** ** Two runs in succession *)

Section Succession.

(** The service as the first run and as the second run see it. *)
Context (first second : KerberosApi).
Context (py_str : value → string) (py_repr : KerberosKey.t → string).

(** C4, as the code has it: with the state present and outside check mode,
    a first run that creates or updates, and whose write the service
    answers with a resource, exits with [changed] true and that resource,
    serialized, as [object]; a second run that resolves this resource and
    finds no drift exits with [changed] false, issues no write, has the
    resource's identifier as [id], and has the empty mapping as
    [object]. *)
Theorem second_run_unchanged (m : KerberosModule) (calls calls' : list call)
    (ex : option KerberosKey.t) (k : KerberosKey.t) (w1 w2 : world) :
  check_mode m = false →
  params m !! "state" = Some (VStr "present") →
  find first py_str py_repr (m, calls) = (Return ex, w1) →
  (payload_changed (with_existing ex m, w1.2)).1 = Return true →
  match ex with
  | None => api_create first (_payload m) = inr k
  | Some e => api_update first (KerberosKey.id e) (_payload m) = inr k
  end →
  find second py_str py_repr (m, calls') = (Return (Some k), w2) →
  (payload_changed (with_existing (Some k) m, w2.2)).1 = Return false →
  ∃ r1 r2 w1' w2',
    run_command first py_str py_repr (m, calls) = (ExitJson r1, w1') ∧
    run_command second py_str py_repr (m, calls') = (ExitJson r2, w2') ∧
    r1 !! "changed" = Some (VBool true) ∧
    r2 !! "changed" = Some (VBool false) ∧
    r1 !! "object" = Some (VDict (KerberosKey.model_dump k)) ∧
    r2 !! "object" = Some (VDict ∅) ∧
    r2 !! "id" = Some (of_opt_str (KerberosKey.id k)) ∧
    filter is_write (issued calls' w2'.2) = [].
Proof.
  intros Hcm Hst Hf1 Hd1 Hw Hf2 Hd2.
  rewrite payload_changed_eq in Hd1, Hd2. simpl in Hd1, Hd2.
  injection Hd1 as Hd1. injection Hd2 as Hd2.
  rewrite (run_command_resolved _ _ _ _ _ _ _ _ Hf1 Hst).
  rewrite (run_command_resolved _ _ _ _ _ _ _ _ Hf2 Hst).
  cbv zeta. rewrite Hcm, Hd1, Hd2.
  destruct (find_frame second py_str py_repr m calls')
    as (o & new & Hf2' & _ & Hnw & _).
  rewrite Hf2 in Hf2'. simplify_eq. simpl.
  destruct ex as [e|]; simpl; rewrite Hw; eexists _, _, _, _;
    (split; [done|]); (split; [done|]);
    unfold assembled; simpl;
    rewrite ?lookup_insert_eq, ?issued_app;
    repeat (rewrite lookup_insert_ne by done; rewrite ?lookup_insert_eq);
    done.
Qed.

(** X11: deleting twice.  With an identifier declared and the state
    absent, outside check mode: a first run that reads the resource and
    whose delete the service accepts exits with [changed] true; a second
    run, to which the service answers the read with not-found, exits with
    [changed] false, without message and without identifier, and its read
    is its only call. *)
Theorem delete_then_absent (m : KerberosModule) (calls calls' : list call)
    (i : value) (e : KerberosKey.t) (status : Z) (reason body : string) :
  check_mode m = false →
  params m !! "state" = Some (VStr "absent") →
  params m !! "id" = Some i → i ≠ VNone →
  api_read first i = inr e →
  api_delete first (KerberosKey.id e) = inr tt →
  api_read second i = inl (NotFoundException status reason body) →
  ∃ r1 r2,
    run_command first py_str py_repr (m, calls) =
      (ExitJson r1,
       (with_existing (Some e) m, calls ++ [Read i; Delete (KerberosKey.id e)])) ∧
    run_command second py_str py_repr (m, calls') =
      (ExitJson r2, (with_existing None m, calls' ++ [Read i])) ∧
    r1 !! "changed" = Some (VBool true) ∧
    r1 !! "msg" = Some (VStr "Kerberos deleted") ∧
    r2 !! "changed" = Some (VBool false) ∧
    r2 !! "msg" = None ∧
    r2 !! "id" = Some VNone.
Proof.
  intros Hcm Hst Hid Hi Hread Hdelete Hgone.
  pose proof (find_by_id first py_str py_repr m calls i Hid Hi) as Hf1.
  pose proof (find_by_id second py_str py_repr m calls' i Hid Hi) as Hf2.
  rewrite Hread in Hf1. rewrite Hgone, Hst in Hf2. simpl in Hf2.
  rewrite ?decide_True in Hf2 by done.
  rewrite (run_command_resolved _ _ _ _ _ _ _ _ Hf1 Hst).
  rewrite (run_command_resolved _ _ _ _ _ _ _ _ Hf2 Hst). simpl.
  rewrite Hcm, Hdelete.
  eexists _, _. simpl. rewrite <-(assoc_L (++)). split_and!; [done|done|..];
    unfold assembled; simpl;
    repeat (rewrite lookup_insert_ne by done); rewrite ?lookup_insert_eq; done.
Qed.

End Succession.

(** ** The sample runs *)

Section Examples.

Import Sample.

(** The task that sets the comment of [k1] resolves the key and, as the
    comment differs, takes the update. *)
Lemma run_command_transition_witness :
  find service_before str repr (init task_comment false, []) =
    (Return (Some key_old), (init task_comment false, [Read (VStr "k1")])) ∧
  takes service_before str repr (init task_comment false, [])
    [Update (Some "k1") (_payload (init task_comment false))] true.
Proof.
  assert (find service_before str repr (init task_comment false, []) =
          (Return (Some key_old), (init task_comment false, [Read (VStr "k1")])))
    as Hf by (vm_compute; reflexivity).
  split; [exact Hf|].
  destruct (run_command_transition _ _ _ _ _ _ _ Hf) as (_ & _ & Hupdate & _).
  apply (Hupdate key_old); vm_compute; reflexivity.
Defined.

(** The same task in check mode: the change is reported, nothing is
    written and no diff is assembled. *)
Lemma check_mode_reports_only_witness :
  ∃ r,
    run_command service_before str repr (init task_comment true, []) =
      (ExitJson r,
       (with_existing (Some key_old) (init task_comment true), [Read (VStr "k1")])) ∧
    r !! "changed" = Some (VBool true) ∧
    r !! "diff" = None.
Proof.
  destruct (check_mode_reports_only service_before str repr
              (init task_comment true) [] (Some key_old)
              (init task_comment true, [Read (VStr "k1")]) (VStr "present"))
    as (r & Hr & _ & Hc & _ & Hd & _);
    [reflexivity | vm_compute; reflexivity | vm_compute; reflexivity |].
  exists r. split; [exact Hr|]. split; [exact Hc|exact Hd].
Defined.

(** Removing a key that the service does not hold: the not-found is
    tolerated and nothing changes. *)
Lemma find_not_found_witness :
  find service_before str repr (init task_remove false, []) =
    (Return None, (init task_remove false, [Read (VStr "k9")])) ∧
  ∃ r,
    run_command service_before str repr (init task_remove false, []) =
      (ExitJson r,
       (with_existing None (init task_remove false), [Read (VStr "k9")])) ∧
    r !! "changed" = Some (VBool false).
Proof.
  destruct (find_not_found service_before str repr (init task_remove false) []
              (VStr "k9") 404 "Not Found" "{}" (VStr "absent"))
    as [Habsent _];
    [vm_compute; reflexivity | discriminate | vm_compute; reflexivity
    | vm_compute; reflexivity |].
  apply Habsent. reflexivity.
Defined.

(** Against a service that is down the task fails with the status, the
    reason and the body of the failure. *)
Lemma api_failure_is_fatal_witness :
  (main service_down str repr task_comment false).1 =
    FailJson "Failed to execute command: 500 Internal Server Error unavailable".
Proof.
  destruct (api_failure_is_fatal service_down str repr (init task_comment false) []
              (main service_down str repr task_comment false).1
              (main service_down str repr task_comment false).2
              (Read (VStr "k1")) 500 "Internal Server Error" "unavailable")
    as [Hout _].
  - vm_compute; reflexivity.
  - vm_compute. apply list_elem_of_here.
  - vm_compute; reflexivity.
  - exact Hout.
Defined.

(** The drift decision on the task that sets the comment of [k1]: the key
    with the old comment drifts, on the key [comment]; the key with the new
    comment does not, whatever its other attributes hold. *)
Lemma payload_changed_drift_witness :
  payload_changed (with_existing (Some key_old) (init task_comment false), []) =
    (Return true, (with_existing (Some key_old) (init task_comment false), [])) ∧
  payload_changed (with_existing (Some key_new) (init task_comment false), []) =
    (Return false, (with_existing (Some key_new) (init task_comment false), [])).
Proof.
  split.
  - destruct (proj1 (proj2 (payload_changed_drift
                 (with_existing (Some key_old) (init task_comment false)) []))
                key_old eq_refl) as (b & Hrun & Hdrift).
    assert (b = true) as Hb.
    { apply Hdrift. exists "comment", (VStr "new"). split; [vm_compute; reflexivity|].
      right. exists (VStr "old"). split; [vm_compute; reflexivity|discriminate]. }
    rewrite Hb in Hrun. exact Hrun.
  - destruct (proj1 (proj2 (payload_changed_drift
                 (with_existing (Some key_new) (init task_comment false)) []))
                key_new eq_refl) as (b & Hrun & Hdrift).
    assert (b = false) as Hb.
    { destruct b; [|reflexivity].
      destruct (proj1 Hdrift eq_refl) as (k & v & Hk & Hne).
      apply elem_of_map_to_list in Hk. vm_compute in Hk.
      apply list_elem_of_singleton in Hk. injection Hk as -> ->.
      destruct Hne as [Hne|(v' & Hv' & Hne)].
      - vm_compute in Hne. discriminate Hne.
      - vm_compute in Hv'. injection Hv' as <-. by destruct Hne. }
    rewrite Hb in Hrun. exact Hrun.
Defined.

(** The task leaves [tags] unset, and the payload has no [tags]. *)
Lemma payload_params_exact_witness :
  task_comment !! "tags" = Some VNone ∧
  _payload_params (init task_comment false) !! "tags" = None.
Proof.
  split; [vm_compute; reflexivity|].
  apply (proj1 (proj2 (payload_params_exact service_before str repr task_comment false))).
  vm_compute; reflexivity.
Defined.

(** The run that finds the comment already set exits with the whole
    surface but the message. *)
Lemma exit_result_surface_witness :
  ∃ r w',
    main service_after str repr task_comment false = (ExitJson r, w') ∧
    (∃ before after,
       r !! "diff" = Some (VDict (<["before" := before]> (<["after" := after]> ∅)))) ∧
    (is_Some (r !! "msg") ↔ r !! "changed" = Some (VBool true)).
Proof.
  exists (assembled (with_existing (Some key_new) (init task_comment false))
            (VDict ∅) initial_result),
    (with_existing (Some key_new) (init task_comment false), [Read (VStr "k1")]).
  assert (main service_after str repr task_comment false =
          (ExitJson (assembled (with_existing (Some key_new) (init task_comment false))
                       (VDict ∅) initial_result),
           (with_existing (Some key_new) (init task_comment false),
            [Read (VStr "k1")]))) as Hrun by (vm_compute; reflexivity).
  split; [exact Hrun|].
  exact (proj2 (proj2 (proj2
    (exit_result_surface service_after str repr (init task_comment false) []
       _ _ eq_refl Hrun)))).
Defined.

(** The run in check mode exits with the initial [object] and [id]. *)
Lemma exit_result_defaults_witness :
  ∃ r w',
    main service_before str repr task_comment true = (ExitJson r, w') ∧
    r !! "object" = Some (VDict ∅) ∧ r !! "id" = Some VNone.
Proof.
  exists (mark ActUpdate initial_result),
    (with_existing (Some key_old) (init task_comment true), [Read (VStr "k1")]).
  assert (main service_before str repr task_comment true =
          (ExitJson (mark ActUpdate initial_result),
           (with_existing (Some key_old) (init task_comment true),
            [Read (VStr "k1")]))) as Hrun by (vm_compute; reflexivity).
  split; [exact Hrun|].
  exact (proj2 (proj2
    (exit_result_defaults service_before str repr (init task_comment true) []
       _ _ Hrun)) eq_refl).
Defined.

(** A task without an identifier, as [main] receives it, ends in the
    [KeyError]. *)
Lemma find_without_id_key_error_witness :
  main service_before str repr task_no_id false =
    (Raise (KeyError "name"), (init task_no_id false, [])).
Proof.
  apply (find_without_id_key_error service_before str repr
           (<["comment" := VStr "new"]> ∅) false).
  left. reflexivity.
Defined.

(** The first run updates the comment, the second finds it set. *)
Lemma second_run_unchanged_witness :
  ∃ r1 r2 w1 w2,
    run_command service_before str repr (init task_comment false, []) =
      (ExitJson r1, w1) ∧
    run_command service_after str repr (init task_comment false, []) =
      (ExitJson r2, w2) ∧
    r1 !! "changed" = Some (VBool true) ∧
    r2 !! "changed" = Some (VBool false) ∧
    r2 !! "object" = Some (VDict ∅).
Proof.
  destruct (second_run_unchanged service_before service_after str repr
              (init task_comment false) [] [] (Some key_old) key_new
              (init task_comment false, [Read (VStr "k1")])
              (init task_comment false, [Read (VStr "k1")]))
    as (r1 & r2 & w1 & w2 & H1 & H2 & Hc1 & Hc2 & _ & Ho2 & _);
    [reflexivity | vm_compute; reflexivity | vm_compute; reflexivity
    | vm_compute; reflexivity | reflexivity | vm_compute; reflexivity
    | vm_compute; reflexivity |].
  exists r1, r2, w1, w2. repeat split; assumption.
Defined.

(** Against C9: outside check mode, the run that removes a key the service
    does not hold and the run that finds the comment already set both exit,
    and neither result has a [msg]. *)
Lemma noop_result_without_msg :
  (∃ r w',
     main service_before str repr task_remove false = (ExitJson r, w') ∧
     r !! "changed" = Some (VBool false) ∧
     r !! "msg" = None) ∧
  (∃ r w',
     main service_after str repr task_comment false = (ExitJson r, w') ∧
     r !! "changed" = Some (VBool false) ∧
     r !! "msg" = None).
Proof.
  split.
  - exists (assembled (with_existing None (init task_remove false))
              (VDict ∅) initial_result),
      (with_existing None (init task_remove false), [Read (VStr "k9")]).
    split; [vm_compute; reflexivity|]. split; vm_compute; reflexivity.
  - exists (assembled (with_existing (Some key_new) (init task_comment false))
              (VDict ∅) initial_result),
      (with_existing (Some key_new) (init task_comment false), [Read (VStr "k1")]).
    split; [vm_compute; reflexivity|]. split; vm_compute; reflexivity.
Qed.

(** Against C4: the second run resolves the key that the update of the
    first run returned; the first run reports the change and the key as
    [object], the second reports no change and the empty mapping. *)
Lemma second_run_object_differs :
  ∃ r1 r2 w1 w2,
    main service_before str repr task_comment false = (ExitJson r1, w1) ∧
    main service_after str repr task_comment false = (ExitJson r2, w2) ∧
    api_update service_before (Some "k1") (_payload (init task_comment false)) =
      inr key_new ∧
    api_read service_after (VStr "k1") = inr key_new ∧
    r1 !! "changed" = Some (VBool true) ∧
    r2 !! "changed" = Some (VBool false) ∧
    r1 !! "object" = Some (VDict (KerberosKey.model_dump key_new)) ∧
    r2 !! "object" = Some (VDict ∅) ∧
    r1 !! "object" ≠ r2 !! "object".
Proof.
  exists (assembled (with_existing (Some key_old) (init task_comment false))
            (VDict (KerberosKey.model_dump key_new)) (mark ActUpdate initial_result)),
    (assembled (with_existing (Some key_new) (init task_comment false))
       (VDict ∅) initial_result),
    (with_existing (Some key_old) (init task_comment false),
     [Read (VStr "k1"); Update (Some "k1") (_payload (init task_comment false))]),
    (with_existing (Some key_new) (init task_comment false), [Read (VStr "k1")]).
  split; [vm_compute; reflexivity|]. split; [vm_compute; reflexivity|].
  split; [reflexivity|]. split; [reflexivity|].
  split; [vm_compute; reflexivity|]. split; [vm_compute; reflexivity|].
  split; [vm_compute; reflexivity|]. split; [vm_compute; reflexivity|].
  intros Heq.
  assert (KerberosKey.model_dump key_new !! "id" = (∅ : dict) !! "id") as Hid.
  { f_equal.
    assert (∀ d d' : dict, Some (VDict d) = Some (VDict d') → d = d') as Hinj
      by (intros ?? [= ->]; reflexivity).
    apply Hinj. etransitivity; [|etransitivity; [exact Heq|]];
      [symmetry|]; vm_compute; reflexivity. }
  vm_compute in Hid. discriminate Hid.
Qed.

(** Two keys answer to the name: the run fails and names both. *)
Lemma lookup_by_name_ambiguous_witness :
  main service_twins str repr task_named false =
    (FailJson "Found multiple Kerberos: [KerberosKey(id=k1), KerberosKey(id=k1)]",
     (init task_named false, [List "name=='ns1'"])).
Proof.
  apply (lookup_by_name_ambiguous service_twins str repr (init task_named false) []
           (VStr "ns1") [key_old; key_new]).
  - vm_compute; reflexivity.
  - vm_compute; reflexivity.
  - reflexivity.
  - simpl; lia.
Defined.

(** No key answers to the name: the key is created and its identifier
    returned. *)
Lemma create_result_witness :
  main service_gone str repr task_named false =
    (ExitJson
       (<["id" := VStr "k1"]>
          (<["object" := VDict (KerberosKey.model_dump key_new)]>
             (<["diff" := VDict (<["before" := VDict ∅]>
                                   (<["after" := VDict (KerberosKey.model_dump key_new)]> ∅))]>
                (<["msg" := VStr "Kerberos created"]>
                   (<["changed" := VBool true]> initial_result))))),
     (with_existing None (init task_named false),
      [List "name=='ns1'"; Create (_payload (init task_named false))])).
Proof.
  apply (create_result service_gone str repr (init task_named false) []
           (init task_named false, [List "name=='ns1'"]) key_new).
  - reflexivity.
  - vm_compute; reflexivity.
  - vm_compute; reflexivity.
  - reflexivity.
Defined.

(** The comment of [k1] is updated. *)
Lemma update_result_witness :
  main service_before str repr task_comment false =
    (ExitJson
       (<["id" := VStr "k1"]>
          (<["object" := VDict (KerberosKey.model_dump key_new)]>
             (<["diff" := VDict (<["before" := VDict (KerberosKey.model_dump key_old)]>
                                   (<["after" := VDict (KerberosKey.model_dump key_new)]> ∅))]>
                (<["msg" := VStr "Kerberos updated"]>
                   (<["changed" := VBool true]> initial_result))))),
     (with_existing (Some key_old) (init task_comment false),
      [Read (VStr "k1"); Update (Some "k1") (_payload (init task_comment false))])).
Proof.
  apply (update_result service_before str repr (init task_comment false) []
           (init task_comment false, [Read (VStr "k1")]) key_old key_new).
  - reflexivity.
  - vm_compute; reflexivity.
  - vm_compute; reflexivity.
  - vm_compute; reflexivity.
  - reflexivity.
Defined.

(** The key [k1] is removed. *)
Lemma delete_result_witness :
  main service_before str repr task_delete false =
    (ExitJson
       (<["id" := VStr "k1"]>
          (<["object" := VDict ∅]>
             (<["diff" := VDict (<["before" := VDict (KerberosKey.model_dump key_old)]>
                                   (<["after" := VDict ∅]> ∅))]>
                (<["msg" := VStr "Kerberos deleted"]>
                   (<["changed" := VBool true]> initial_result))))),
     (with_existing (Some key_old) (init task_delete false),
      [Read (VStr "k1"); Delete (Some "k1")])).
Proof.
  apply (delete_result service_before str repr (init task_delete false) []
           (init task_delete false, [Read (VStr "k1")]) key_old).
  - reflexivity.
  - vm_compute; reflexivity.
  - vm_compute; reflexivity.
  - reflexivity.
Defined.

(** The comment of [k1] is already set. *)
Lemma noop_result_witness :
  main service_after str repr task_comment false =
    (ExitJson
       (<["id" := VStr "k1"]>
          (<["object" := VDict ∅]>
             (<["diff" := VDict (<["before" := VDict (KerberosKey.model_dump key_new)]>
                                   (<["after" := VDict ∅]> ∅))]>
                initial_result))),
     (with_existing (Some key_new) (init task_comment false), [Read (VStr "k1")])).
Proof.
  apply (noop_result service_after str repr (init task_comment false) []
           (init task_comment false, [Read (VStr "k1")]) (Some key_new)).
  - reflexivity.
  - vm_compute; reflexivity.
  - left. split; [vm_compute; reflexivity|].
    split; [exists key_new; reflexivity|vm_compute; reflexivity].
Defined.


Lemma foreign_exception_passes_witness :
  (main service_broken str repr task_comment false).1 =
    Raise (AttributeError "result").
Proof.
  destruct (foreign_exception_passes service_broken str repr
              (init task_comment false) []
              (main service_broken str repr task_comment false).1
              (main service_broken str repr task_comment false).2
              (Read (VStr "k1")) (AttributeError "result"))
    as [Hout _].
  - vm_compute; reflexivity.
  - vm_compute. apply list_elem_of_here.
  - reflexivity.
  - reflexivity.
  - exact Hout.
Defined.

(** The key disappears between the read and the delete: the run fails
    although the state is absent. *)
Lemma not_found_after_lookup_is_fatal_witness :
  (main service_racing str repr task_delete false).1 =
    FailJson "Failed to execute command: 404 Not Found {}".
Proof.
  destruct (not_found_after_lookup_is_fatal service_racing str repr
              (init task_delete false) []
              (main service_racing str repr task_delete false).1
              (main service_racing str repr task_delete false).2
              (Delete (Some "k1")) 404 "Not Found" "{}")
    as [Hout _].
  - vm_compute; reflexivity.
  - exists (VStr "absent"). vm_compute; reflexivity.
  - vm_compute. apply list_elem_of_further, list_elem_of_here.
  - discriminate.
  - reflexivity.
  - exact Hout.
Defined.

(** Removing [k1] twice. *)
Lemma delete_then_absent_witness :
  ∃ r1 r2,
    (main service_before str repr task_delete false).1 = ExitJson r1 ∧
    (main service_gone str repr task_delete false).1 = ExitJson r2 ∧
    r1 !! "changed" = Some (VBool true) ∧
    r2 !! "changed" = Some (VBool false).
Proof.
  destruct (delete_then_absent service_before service_gone str repr
              (init task_delete false) [] [] (VStr "k1") key_old
              404 "Not Found" "{}")
    as (r1 & r2 & H1 & H2 & Hc1 & _ & Hc2 & _);
    [reflexivity | vm_compute; reflexivity | vm_compute; reflexivity
    | discriminate | reflexivity | reflexivity | reflexivity |].
  exists r1, r2. unfold main. rewrite H1, H2. repeat split; assumption.
Defined.

End Examples.
